(** * MoodProblemsApp: the Patient Info and History screens

    A shallow embedding of
    - [src/components/screens/PatientInfoScreen.tsx] (the date helper
      [formatDate], the view state of [PatientInfoScreen], its two fetch
      routines, the refresh and row-press handlers and the render function);
    - the History screen (its local helper [formatDateAndTime]).

    The file is organised as the code is: first the part of the JavaScript
    runtime the helpers call into ([Number] to [String], [padStart], the
    [Date] object of ECMA-262), then the helpers, then the component. *)

From Stdlib Require Import ZArith List String Ascii Bool Lia QArith.
From Stdlib Require Import DecimalString DecimalZ DecimalPos.
From Stdlib Require SpecFloat.
Import ListNotations.

Set Warnings "-register-all".

Open Scope string_scope.
Open Scope Z_scope.

(* ===================================================================== *)
(** ** JavaScript numbers and strings, as far as the helpers use them *)
(* ===================================================================== *)

Module JS.

(** A JavaScript number as data: an IEEE 754 double. The component holds
    the [age] and the [height] of a patient as such and hands them to React
    without computing on them. *)
Definition number : Type := SpecFloat.spec_float.

(** The safe integers, which a double holds exactly and [toString] prints
    digit by digit. *)
Definition MAX_SAFE_INTEGER : Z := 9007199254740991.

Definition isSafeInteger (z : Z) : bool := Z.abs z <=? MAX_SAFE_INTEGER.

(** The numbers the helpers handle are calendar fields and time values:
    integers well inside the exact range of a double, or NaN. *)
Inductive Num : Type :=
| NaN
| Int (z : Z).

(** [x + y] on numbers: NaN is absorbing. *)
Definition add (x y : Num) : Num :=
  match x, y with
  | Int a, Int b => Int (a + b)
  | _, _ => NaN
  end.

(** Decimal digits of an integer, with a leading minus sign when negative. *)
Definition decimal (z : Z) : string :=
  NilZero.string_of_int (Z.to_int z).

(** [String(x)], i.e. Number::toString with radix 10, on NaN and on
    integers below 10^21 in magnitude (no exponent part). *)
Definition ToString (x : Num) : string :=
  match x with
  | NaN => "NaN"
  | Int z => decimal z
  end.

(** The filler of [StringPad]: [fill] repeated and cut to [n] characters. *)
Fixpoint repeatTo (n : nat) (fill cur : string) : string :=
  match n with
  | O => ""
  | S n' =>
      match cur with
      | String c rest => String c (repeatTo n' fill rest)
      | EmptyString =>
          match fill with
          | String c rest => String c (repeatTo n' fill rest)
          | EmptyString => ""
          end
      end
  end.

(** [s.padStart(maxLength, fillString)] (ECMA-262 StringPad, placement
    start): [s] itself when it is long enough or the filler is empty. *)
Definition padStart (s : string) (maxLength : Z) (fillString : string) : string :=
  let stringLength := Z.of_nat (String.length s) in
  if maxLength <=? stringLength then s
  else if String.eqb fillString "" then s
  else repeatTo (Z.to_nat (maxLength - stringLength)) fillString fillString ++ s.

End JS.

(* ===================================================================== *)
(** ** The Date object (ECMA-262, section 21.4) *)
(* ===================================================================== *)

Module DateObj.

Import JS.

Definition msPerDay : Z := 86400000.
Definition msPerHour : Z := 3600000.
Definition msPerMinute : Z := 60000.
Definition msPerSecond : Z := 1000.

(** Day number and time within the day of a time value. *)
Definition Day (t : Z) : Z := t / msPerDay.
Definition TimeWithinDay (t : Z) : Z := t mod msPerDay.

Definition isLeap (y : Z) : bool :=
  if negb (y mod 4 =? 0) then false
  else if negb (y mod 100 =? 0) then true
  else if negb (y mod 400 =? 0) then false
  else true.

Definition DaysInYear (y : Z) : Z := if isLeap y then 366 else 365.

(** Day number of the first day of year [y]. *)
Definition DayFromYear (y : Z) : Z :=
  365 * (y - 1970) + (y - 1969) / 4 - (y - 1901) / 100 + (y - 1601) / 400.

Definition TimeFromYear (y : Z) : Z := msPerDay * DayFromYear y.

(** The standard defines [YearFromTime t] as the largest [y] with
    [TimeFromYear y <= t]. It is computed here from an estimate that is off
    by at most one year; [YearFromTime_spec] below shows that the result is
    the year of the standard. *)
Definition YearFromDay (d : Z) : Z :=
  let y0 := 1970 + (d * 400) / 146097 in
  if d <? DayFromYear y0 then y0 - 1
  else if DayFromYear (y0 + 1) <=? d then y0 + 1
  else y0.

Definition YearFromTime (t : Z) : Z := YearFromDay (Day t).

Definition InLeapYear (t : Z) : Z :=
  if isLeap (YearFromTime t) then 1 else 0.

Definition DayWithinYear (t : Z) : Z := Day t - DayFromYear (YearFromTime t).

(** Month number, 0 for January to 11 for December. *)
Definition MonthFromTime (t : Z) : Z :=
  let d := DayWithinYear t in
  let l := InLeapYear t in
  if d <? 31 then 0
  else if d <? 59 + l then 1
  else if d <? 90 + l then 2
  else if d <? 120 + l then 3
  else if d <? 151 + l then 4
  else if d <? 181 + l then 5
  else if d <? 212 + l then 6
  else if d <? 243 + l then 7
  else if d <? 273 + l then 8
  else if d <? 304 + l then 9
  else if d <? 334 + l then 10
  else 11.

(** Day of the month, from 1. *)
Definition DateFromTime (t : Z) : Z :=
  let d := DayWithinYear t in
  let l := InLeapYear t in
  match MonthFromTime t with
  | 0 => d + 1
  | 1 => d - 30
  | 2 => d - 58 - l
  | 3 => d - 89 - l
  | 4 => d - 119 - l
  | 5 => d - 150 - l
  | 6 => d - 180 - l
  | 7 => d - 211 - l
  | 8 => d - 242 - l
  | 9 => d - 272 - l
  | 10 => d - 303 - l
  | _ => d - 333 - l
  end.

(** Days from the start of a year to the start of month [m] (0 to 11). *)
Definition daysBeforeMonth (leap : bool) (m : Z) : Z :=
  let l := if leap then 1 else 0 in
  match m with
  | 0 => 0
  | 1 => 31
  | 2 => 59 + l
  | 3 => 90 + l
  | 4 => 120 + l
  | 5 => 151 + l
  | 6 => 181 + l
  | 7 => 212 + l
  | 8 => 243 + l
  | 9 => 273 + l
  | 10 => 304 + l
  | _ => 334 + l
  end.

(** [MakeDay year month date]: the day number of the given calendar day;
    months outside 0..11 carry into the year, dates run over month ends. *)
Definition MakeDay (year month date : Z) : Z :=
  let ym := year + month / 12 in
  let mn := month mod 12 in
  DayFromYear ym + daysBeforeMonth (isLeap ym) mn + date - 1.

Definition MakeTime (hour min sec ms : Z) : Z :=
  hour * msPerHour + min * msPerMinute + sec * msPerSecond + ms.

Definition MakeDate (day time : Z) : Z := day * msPerDay + time.

(** [TimeClip]: time values beyond 8.64e15 ms from the epoch are NaN. *)
Definition TimeClip (t : Z) : Num :=
  if 8640000000000000 <? Z.abs t then NaN else Int t.

(** What the host contributes: to [Date], the offset of the local time zone
    ([LocalTZA t isUTC], in milliseconds; [isUTC] tells whether [t] is a UTC
    or a local time value) and the implementation-defined fall-back of
    [Date.parse] for strings outside the Date Time String Format; to
    [Number.prototype.toString], the text of an integer-valued number beyond
    the safe integers (rounded digits, an exponent from 10^21 on). *)
Record Host : Type := mkHost {
  LocalTZA : Z -> bool -> Z;
  fallbackParse : string -> Num;
  toStringBeyondSafe : Z -> string
}.

(** [z.toString()] for an integer-valued number [z]: the decimal digits of
    a safe integer, and what the host prints beyond the safe integers. *)
Definition IntegerToString (h : Host) (z : Z) : string :=
  if isSafeInteger z then decimal z else toStringBeyondSafe h z.

Definition LocalTime (h : Host) (t : Z) : Z := t + LocalTZA h t true.
Definition UTC (h : Host) (t : Z) : Z := t - LocalTZA h t false.

(** *** The Date Time String Format, [YYYY-MM-DDTHH:mm:ss.sssZ]

    Date-only forms [YYYY], [YYYY-MM], [YYYY-MM-DD], with the expanded years
    [+YYYYYY] and [-YYYYYY]; date-time forms add [THH:mm], [THH:mm:ss] or
    [THH:mm:ss.sss], then an optional offset [Z], [+HH:mm] or [-HH:mm]. *)

Record IsoFields : Type := mkIso {
  isoYear : Z;
  isoMonth : Z;              (* 1 to 12 *)
  isoDay : Z;                (* 1 to 31 *)
  isoTime : option (Z * Z * Z * Z);   (* hour, minute, second, millisecond *)
  isoOffset : option Z       (* minutes east of UTC; [Some 0] for [Z] *)
}.

Definition digitValue (c : ascii) : option Z :=
  let n := Z.of_nat (nat_of_ascii c) in
  if (48 <=? n) && (n <=? 57) then Some (n - 48) else None.

(** Exactly [n] decimal digits at the head of the input. *)
Fixpoint readDigits (n : nat) (acc : Z) (cs : list ascii) : option (Z * list ascii) :=
  match n with
  | O => Some (acc, cs)
  | S n' =>
      match cs with
      | c :: rest =>
          match digitValue c with
          | Some v => readDigits n' (10 * acc + v) rest
          | None => None
          end
      | [] => None
      end
  end.

Definition readYear (cs : list ascii) : option (Z * list ascii) :=
  match cs with
  | "+"%char :: rest => readDigits 6 0 rest
  | "-"%char :: rest =>
      match readDigits 6 0 rest with
      | Some (y, rest') => if y =? 0 then None else Some (- y, rest')
      | None => None
      end
  | _ => readDigits 4 0 cs
  end.

(** Two digits within [lo..hi]. *)
Definition readField (lo hi : Z) (cs : list ascii) : option (Z * list ascii) :=
  match readDigits 2 0 cs with
  | Some (v, rest) => if (lo <=? v) && (v <=? hi) then Some (v, rest) else None
  | None => None
  end.

Definition readOffset (cs : list ascii) : option (option Z) :=
  match cs with
  | [] => Some None
  | ["Z"%char] => Some (Some 0)
  | sign :: rest =>
      let sg := if Ascii.eqb sign "+" then Some 1
                else if Ascii.eqb sign "-" then Some (-1) else None in
      match sg, readField 0 23 rest with
      | Some k, Some (hh, ":"%char :: rest') =>
          match readField 0 59 rest' with
          | Some (mm, []) => Some (Some (k * (hh * 60 + mm)))
          | _ => None
          end
      | _, _ => None
      end
  end.

(** [HH:mm], [HH:mm:ss] or [HH:mm:ss.sss] and what follows; hour 24 only as
    [24:00:00.000], the end of the day. *)
Definition readTime (cs : list ascii) : option ((Z * Z * Z * Z) * option Z) :=
  match readField 0 24 cs with
  | Some (hh, ":"%char :: r1) =>
      match readField 0 59 r1 with
      | Some (mi, r2) =>
          let finish (ss ms : Z) (r : list ascii) :=
            if (hh =? 24) && negb ((mi =? 0) && (ss =? 0) && (ms =? 0)) then None
            else match readOffset r with
                 | Some off => Some ((hh, mi, ss, ms), off)
                 | None => None
                 end in
          match r2 with
          | ":"%char :: r3 =>
              match readField 0 59 r3 with
              | Some (ss, "."%char :: r4) =>
                  match readDigits 3 0 r4 with
                  | Some (ms, r5) => finish ss ms r5
                  | None => None
                  end
              | Some (ss, r4) => finish ss 0 r4
              | None => None
              end
          | _ => finish 0 0 r2
          end
      | None => None
      end
  | _ => None
  end.

Definition readTail (y mo d : Z) (cs : list ascii) : option IsoFields :=
  match cs with
  | [] => Some (mkIso y mo d None None)
  | "T"%char :: rest =>
      match readTime rest with
      | Some (tm, off) => Some (mkIso y mo d (Some tm) off)
      | None => None
      end
  | _ => None
  end.

Definition parseISO (s : string) : option IsoFields :=
  match readYear (list_ascii_of_string s) with
  | Some (y, "-"%char :: r1) =>
      match readField 1 12 r1 with
      | Some (mo, "-"%char :: r2) =>
          match readField 1 31 r2 with
          | Some (d, r3) => readTail y mo d r3
          | None => None
          end
      | Some (mo, r2) => readTail y mo 1 r2
      | None => None
      end
  | Some (y, r1) => readTail y 1 1 r1
  | None => None
  end.

(** The time value of the parsed fields. Without an offset a date-only form
    is a UTC time and a date-time form is a local time. *)
Definition isoTimeValue (h : Host) (f : IsoFields) : Num :=
  let day := MakeDay (isoYear f) (isoMonth f - 1) (isoDay f) in
  let time := match isoTime f with
              | Some (hh, mi, ss, ms) => MakeTime hh mi ss ms
              | None => 0
              end in
  let tv := MakeDate day time in
  match isoOffset f, isoTime f with
  | Some off, _ => TimeClip (tv - off * msPerMinute)
  | None, Some _ => TimeClip (UTC h tv)
  | None, None => TimeClip tv
  end.

(** [Date.parse]. *)
Definition parse (h : Host) (s : string) : Num :=
  match parseISO s with
  | Some f => isoTimeValue h f
  | None => fallbackParse h s
  end.

(** A Date object: its time value, NaN for an invalid date. *)
Record Date : Type := mkDate { DateValue : Num }.

(** [new Date(dateString)]. *)
Definition newDate (h : Host) (dateString : string) : Date :=
  mkDate (parse h dateString).

Definition localField (field : Z -> Z) (h : Host) (d : Date) : Num :=
  match DateValue d with
  | NaN => NaN
  | Int t => Int (field (LocalTime h t))
  end.

Definition getFullYear : Host -> Date -> Num := localField YearFromTime.
Definition getMonth : Host -> Date -> Num := localField MonthFromTime.
Definition getDate : Host -> Date -> Num := localField DateFromTime.

(** Hosts with a fixed offset from UTC (in minutes, east positive) and no
    fall-back formats. They are run on safe integers only; beyond those they
    print plain digits. *)
Definition fixedOffsetHost (minutes : Z) : Host :=
  mkHost (fun _ _ => minutes * msPerMinute) (fun _ => NaN) decimal.

Definition utcHost : Host := fixedOffsetHost 0.

(** America/Mexico_City: UTC-06:00 the year round since 2022. *)
Definition mexicoCityHost : Host := fixedOffsetHost (-360).

(** Europe/Madrid in winter: UTC+01:00. *)
Definition madridWinterHost : Host := fixedOffsetHost 60.

End DateObj.

(* ===================================================================== *)
(** ** The date helpers *)
(* ===================================================================== *)

Import JS DateObj.

(** [formatDate] of PatientInfoScreen.tsx. *)
Definition formatDate (h : Host) (dateString : string) : string :=
  let date := newDate h dateString in
  let year := getFullYear h date in
  let month := padStart (ToString (add (getMonth h date) (Int 1))) 2 "0" in
  let day := padStart (ToString (getDate h date)) 2 "0" in
  ToString year ++ "-" ++ month ++ "-" ++ day.

(** [formatDateAndTime] of the History screen. The [formatDate] it calls is
    imported from [./PatientDetailScreen], a module that is not among the
    sources: it is the argument [importedFormatDate]. *)
Definition formatDateAndTime (importedFormatDate : string -> string)
    (date time : string) : string :=
  importedFormatDate date ++ " " ++ time.

(** Modelled from the spec: [formatDate] of [./PatientDetailScreen] is
    missing. The specification has it map a date string to the canonical
    [YYYY-MM-DD] representation of its date, and shows the date
    [2024-03-05] as [2024-03-05]: a date already written that way comes
    back as it is. [keepsCanonical f date] says that [f] does so at
    [date]. *)
Definition keepsCanonical (importedFormatDate : string -> string)
    (date : string) : Prop :=
  importedFormatDate date = date.

(* ===================================================================== *)
(** ** The component: state, effects and handlers *)
(* ===================================================================== *)

Module Screen.

Record Diagnosis : Type := mkDiagnosis {
  history_id : Z;
  date : string;
  time : string
}.

Record PatientDetails : Type := mkPatientDetails {
  name : string;
  phone : string;
  email : string;
  age : number;
  sex : string;
  height : number
}.

(** An entry of the list [getPatientHistory] resolves to. The component
    reads it as [any]: next to the three fields it copies, an entry may
    carry any further properties ([item_rest], property name and value). *)
Record HistoryItem : Type := mkHistoryItem {
  item_history_id : Z;
  item_date : string;
  item_time : string;
  item_rest : list (string * string)
}.

(** A thrown [Error]. *)
Record Error : Type := mkError { message : string }.

(** The five [useState] cells of the component. *)
Record State : Type := mkState {
  diagnoses : list Diagnosis;
  patientDetails : option PatientDetails;
  loading : bool;
  refreshing : bool;
  pressedDiagnosisId : option Z
}.

(** [Animated.timing(pressAnimValue, {toValue, duration, useNativeDriver})
    .start()]. *)
Record Timing : Type := mkTiming {
  toValue : Q;
  duration : Z;
  useNativeDriver : bool
}.

(** The component state together with what the component does to its
    surroundings: alerts shown, [navigation.goBack()] calls, animations
    started and calls made to the patient service (all oldest first). *)
Record World : Type := mkWorld {
  state : State;
  alerts : list (string * string);
  goBackCalls : nat;
  animations : list Timing;
  getPatientDataCalls : nat;
  getPatientHistoryCalls : nat
}.

(** *** A state monad with exceptions

    A computation runs on a world and completes normally with a value or
    abruptly with a thrown error; the changes made before a throw stay. *)

Inductive Completion (A : Type) : Type :=
| Normal (a : A)
| Throw (e : Error).
Arguments Normal {A} a.
Arguments Throw {A} e.

Definition M (A : Type) : Type := World -> Completion A * World.

Definition ret {A} (a : A) : M A := fun w => (Normal a, w).

Definition bind {A B} (m : M A) (k : A -> M B) : M B :=
  fun w =>
    match m w with
    | (Normal a, w') => k a w'
    | (Throw e, w') => (Throw e, w')
    end.

Definition throw {A} (e : Error) : M A := fun w => (Throw e, w).

(** [try { body } catch (error) { handler } finally { final }]. *)
Definition tryCatchFinally {A} (body : M A) (handler : Error -> M A)
    (final : M unit) : M A :=
  fun w =>
    let '(r, w1) := body w in
    let '(r', w2) := match r with
                     | Normal a => (Normal a, w1)
                     | Throw e => handler e w1
                     end in
    match final w2 with
    | (Normal _, w3) => (r', w3)
    | (Throw e, w3) => (Throw e, w3)
    end.

Declare Scope js_scope.
Delimit Scope js_scope with js.
Notation "x <- m ;; k" := (bind m (fun x => k))
  (at level 61, m at next level, right associativity) : js_scope.
Notation "m ;; k" := (bind m (fun _ => k))
  (at level 61, right associativity) : js_scope.
Local Open Scope js_scope.

Definition exec {A} (m : M A) (w : World) : World := snd (m w).
Definition completion {A} (m : M A) (w : World) : Completion A := fst (m w).

Definition modifyState (f : State -> State) : M unit :=
  fun w => (Normal tt,
            mkWorld (f (state w)) (alerts w) (goBackCalls w) (animations w)
                    (getPatientDataCalls w) (getPatientHistoryCalls w)).

(** The state setters. *)
Definition setDiagnoses (v : list Diagnosis) : M unit :=
  modifyState (fun s => mkState v (patientDetails s) (loading s) (refreshing s)
                                (pressedDiagnosisId s)).
Definition setPatientDetails (v : option PatientDetails) : M unit :=
  modifyState (fun s => mkState (diagnoses s) v (loading s) (refreshing s)
                                (pressedDiagnosisId s)).
Definition setLoading (v : bool) : M unit :=
  modifyState (fun s => mkState (diagnoses s) (patientDetails s) v (refreshing s)
                                (pressedDiagnosisId s)).
Definition setRefreshing (v : bool) : M unit :=
  modifyState (fun s => mkState (diagnoses s) (patientDetails s) (loading s) v
                                (pressedDiagnosisId s)).
Definition setPressedDiagnosisId (v : option Z) : M unit :=
  modifyState (fun s => mkState (diagnoses s) (patientDetails s) (loading s)
                                (refreshing s) v).

(** [Alert.alert(title, message)]. *)
Definition Alert_alert (title msg : string) : M unit :=
  fun w => (Normal tt,
            mkWorld (state w) (alerts w ++ [(title, msg)]) (goBackCalls w)
                    (animations w) (getPatientDataCalls w)
                    (getPatientHistoryCalls w)).

(** [navigation.goBack()]. *)
Definition navigation_goBack : M unit :=
  fun w => (Normal tt,
            mkWorld (state w) (alerts w) (S (goBackCalls w)) (animations w)
                    (getPatientDataCalls w) (getPatientHistoryCalls w)).

(** [Animated.timing(pressAnimValue, config).start()]. *)
Definition Animated_timing_start (config : Timing) : M unit :=
  fun w => (Normal tt,
            mkWorld (state w) (alerts w) (goBackCalls w)
                    (animations w ++ [config]) (getPatientDataCalls w)
                    (getPatientHistoryCalls w)).

(** The two calls to the patient service; each returns a promise. *)
Definition getPatientData : M unit :=
  fun w => (Normal tt,
            mkWorld (state w) (alerts w) (goBackCalls w) (animations w)
                    (S (getPatientDataCalls w)) (getPatientHistoryCalls w)).
Definition getPatientHistory : M unit :=
  fun w => (Normal tt,
            mkWorld (state w) (alerts w) (goBackCalls w) (animations w)
                    (getPatientDataCalls w) (S (getPatientHistoryCalls w))).

(** How a promise settles. *)
Inductive Settled (A : Type) : Type :=
| Fulfilled (a : A)
| Rejected (e : Error).
Arguments Fulfilled {A} a.
Arguments Rejected {A} e.

(** [await p], resumed once [p] has settled: the value, or a throw. *)
Definition await {A} (p : Settled A) : M A :=
  match p with
  | Fulfilled a => ret a
  | Rejected e => throw e
  end.

(** *** The async routines

    An async routine runs up to its [await] when it is called and resumes
    when the awaited promise settles; other handlers may run in between.
    Each routine is therefore given in two parts: [_call], which issues the
    request, and [_resume], the rest of the body, run on the settlement. *)

Definition fetchPatientHistory_call : M unit := getPatientHistory.

Definition fetchPatientHistory_resume (p : Settled (list HistoryItem)) : M unit :=
  tryCatchFinally
    (historyData <- await p ;;
     setDiagnoses
       (map (fun item => mkDiagnosis (item_history_id item) (item_date item)
                                     (item_time item))
            historyData))
    (fun error => Alert_alert "Error" (message error))
    (setRefreshing false).

Definition fetchPatientData_call : M unit := getPatientData.

Definition fetchPatientData_resume (p : Settled PatientDetails) : M unit :=
  tryCatchFinally
    (data <- await p ;;
     setPatientDetails (Some data))
    (fun error => Alert_alert "Error" (message error) ;; navigation_goBack)
    (setLoading false).

(** The whole of a routine when nothing runs between call and settlement. *)
Definition fetchPatientHistory (p : Settled (list HistoryItem)) : M unit :=
  fetchPatientHistory_call ;; fetchPatientHistory_resume p.
Definition fetchPatientData (p : Settled PatientDetails) : M unit :=
  fetchPatientData_call ;; fetchPatientData_resume p.

(** The mount effect, [useEffect(() => {...}, [])], up to the two awaits. *)
Definition mountEffect : M unit :=
  fetchPatientData_call ;; fetchPatientHistory_call.

(** [onRefresh], up to the await of the fetch it starts. *)
Definition onRefresh : M unit :=
  setRefreshing true ;; fetchPatientHistory_call.

Definition handleRowPressIn (id : Z) : M unit :=
  setPressedDiagnosisId (Some id) ;;
  Animated_timing_start (mkTiming (98 # 100) 100 true).

Definition handleRowPressOut : M unit :=
  setPressedDiagnosisId None ;;
  Animated_timing_start (mkTiming 1 100 true).

Definition handleRowPress (id : Z) : M unit :=
  setPressedDiagnosisId None.

(** The state of the hooks at the first render. *)
Definition initialState : State := mkState [] None true false None.

Definition initialWorld : World := mkWorld initialState [] 0 [] 0 0.

(** *** Rendering

    The element tree the component returns, without style props. The
    handlers a tree carries are the user events it can raise. *)

Inductive UIEvent : Type :=
| PressIn (id : Z)
| PressOut
| Press (id : Z)
| Refresh.

(** A child of a [Text]: a string, or a number that React prints. *)
Inductive TextChild : Type :=
| ChildString (s : string)
| ChildNumber (n : number).

(** [Text] is a text element with one string child, [TextOf] one with
    several children, as in [{patientDetails.age} años]. *)
Inductive Element : Type :=
| SafeAreaView (children : list Element)
| View (children : list Element)
| Fragment (children : list Element)
| Text (content : string)
| TextOf (children : list TextChild)
| ActivityIndicator
| AnimatedView (scaled : bool) (children : list Element)
| TouchableOpacity (onPressIn onPressOut onPress : UIEvent)
    (children : list Element)
| FlatList (keys : list string) (rows : list Element) (refreshControl : Element)
| RefreshControl (isRefreshing : bool) (onRefreshProp : UIEvent).

Definition noDiagnosesText : string :=
  "Ups, parece que aún no tiene diagnósticos en el historial.".

Section Render.

Variable h : Host.

(** The inner component [PatientInfo]; nothing for [null]. *)
Definition PatientInfo (s : State) : list Element :=
  match patientDetails s with
  | None => []
  | Some p =>
      [View
         [View
            [View [Text "Nombre"; Text (name p)];
             View [Text "Teléfono"; Text (phone p)];
             View [Text "Correo electrónico"; Text (email p)]];
          View
            [View [Text "Edad"; TextOf [ChildNumber (age p); ChildString " años"]];
             View [Text "Sexo"; Text (sex p)];
             View [Text "Altura"; TextOf [ChildNumber (height p); ChildString " cm"]]]]]
  end.

Definition optZ_eqb (a : option Z) (b : Z) : bool :=
  match a with
  | Some x => x =? b
  | None => false
  end.

Definition renderDiagnosis (s : State) (item : Diagnosis) : Element :=
  AnimatedView (optZ_eqb (pressedDiagnosisId s) (history_id item))
    [TouchableOpacity (PressIn (history_id item)) PressOut
       (Press (history_id item))
       [View [Text (formatDate h (date item))];
        View [Text (time item)]]].

Definition keyExtractor (item : Diagnosis) : string :=
  IntegerToString h (history_id item).

Definition render (s : State) : Element :=
  if loading s then
    SafeAreaView [View [ActivityIndicator]]
  else
    SafeAreaView
      [View
         [View
            (PatientInfo s ++
             [View [];
              Text "Historial de Diagnósticos";
              if (Z.of_nat (List.length (diagnoses s)) =? 0) then
                Text noDiagnosesText
              else
                Fragment
                  [View
                     [View [Text "Fecha"];
                      View [Text "Hora del Diagnóstico"]];
                   FlatList (map keyExtractor (diagnoses s))
                     (map (renderDiagnosis s) (diagnoses s))
                     (RefreshControl (refreshing s) Refresh)]])]].

End Render.

(** The strings among the children of a text element. *)
Definition childStrings (cs : list TextChild) : list string :=
  flat_map (fun c => match c with
                     | ChildString s => [s]
                     | ChildNumber _ => []
                     end) cs.

(** What can be seen in a tree: its texts, its lists and refresh controls,
    and the user events its handlers raise. *)
Fixpoint texts (e : Element) : list string :=
  match e with
  | SafeAreaView cs | View cs | Fragment cs => flat_map texts cs
  | Text c => [c]
  | TextOf cs => childStrings cs
  | ActivityIndicator => []
  | AnimatedView _ cs => flat_map texts cs
  | TouchableOpacity _ _ _ cs => flat_map texts cs
  | FlatList _ rows rc => flat_map texts rows ++ texts rc
  | RefreshControl _ _ => []
  end.

Fixpoint flatLists (e : Element) : nat :=
  match e with
  | SafeAreaView cs | View cs | Fragment cs =>
      list_sum (map flatLists cs)
  | Text _ | TextOf _ | ActivityIndicator | RefreshControl _ _ => 0
  | AnimatedView _ cs => list_sum (map flatLists cs)
  | TouchableOpacity _ _ _ cs => list_sum (map flatLists cs)
  | FlatList _ rows rc => S (list_sum (map flatLists rows) + flatLists rc)
  end.

Fixpoint refreshControls (e : Element) : list (bool * UIEvent) :=
  match e with
  | SafeAreaView cs | View cs | Fragment cs => flat_map refreshControls cs
  | Text _ | TextOf _ | ActivityIndicator => []
  | AnimatedView _ cs => flat_map refreshControls cs
  | TouchableOpacity _ _ _ cs => flat_map refreshControls cs
  | FlatList _ rows rc => flat_map refreshControls rows ++ refreshControls rc
  | RefreshControl r ev => [(r, ev)]
  end.

Fixpoint handlers (e : Element) : list UIEvent :=
  match e with
  | SafeAreaView cs | View cs | Fragment cs => flat_map handlers cs
  | Text _ | TextOf _ | ActivityIndicator => []
  | AnimatedView _ cs => flat_map handlers cs
  | TouchableOpacity i o p cs => i :: o :: p :: flat_map handlers cs
  | FlatList _ rows rc => flat_map handlers rows ++ handlers rc
  | RefreshControl _ ev => [ev]
  end.

Definition UIEvent_eqb (a b : UIEvent) : bool :=
  match a, b with
  | PressIn x, PressIn y => x =? y
  | PressOut, PressOut => true
  | Press x, Press y => x =? y
  | Refresh, Refresh => true
  | _, _ => false
  end.

(** The handler a user event runs. *)
Definition dispatch (ev : UIEvent) : M unit :=
  match ev with
  | PressIn id => handleRowPressIn id
  | PressOut => handleRowPressOut
  | Press id => handleRowPress id
  | Refresh => onRefresh
  end.

(** *** The mounted screen as a transition system

    Between renders three kinds of things happen: the record fetch settles,
    a list fetch settles, or the user raises an event of the rendered tree.
    A fetch can settle only when more calls were issued than have settled. *)

Record System : Type := mkSystem {
  world : World;
  dataSettled : nat;
  historySettled : nat
}.

Inductive Event : Type :=
| DataSettles (p : Settled PatientDetails)
| HistorySettles (p : Settled (list HistoryItem))
| User (ev : UIEvent).

Definition mounted : System := mkSystem (exec mountEffect initialWorld) 0 0.

Definition fire (h : Host) (ev : Event) (sys : System) : option System :=
  let w := world sys in
  match ev with
  | DataSettles p =>
      if (dataSettled sys <? getPatientDataCalls w)%nat then
        Some (mkSystem (exec (fetchPatientData_resume p) w)
                       (S (dataSettled sys)) (historySettled sys))
      else None
  | HistorySettles p =>
      if (historySettled sys <? getPatientHistoryCalls w)%nat then
        Some (mkSystem (exec (fetchPatientHistory_resume p) w)
                       (dataSettled sys) (S (historySettled sys)))
      else None
  | User ev =>
      if existsb (UIEvent_eqb ev) (handlers (render h (state w))) then
        Some (mkSystem (exec (dispatch ev) w)
                       (dataSettled sys) (historySettled sys))
      else None
  end.

Fixpoint run (h : Host) (evs : list Event) (sys : System) : option System :=
  match evs with
  | [] => Some sys
  | ev :: rest =>
      match fire h ev sys with
      | Some sys' => run h rest sys'
      | None => None
      end
  end.

Definition isDataSettles (ev : Event) : bool :=
  match ev with
  | DataSettles _ => true
  | _ => false
  end.

Definition isDataRejected (ev : Event) : bool :=
  match ev with
  | DataSettles (Rejected _) => true
  | _ => false
  end.

(** How many events of a trace satisfy [p]. *)
Definition count (p : Event -> bool) (evs : list Event) : nat :=
  List.length (filter p evs).

(** The entry of [diagnoses] a service item is copied to. *)
Definition truncated (item : HistoryItem) : Diagnosis :=
  mkDiagnosis (item_history_id item) (item_date item) (item_time item).

(** [w'] differs from [w] at most in the cell [pressedDiagnosisId] and in
    the animations started. *)
Definition pressOnly (w w' : World) : Prop :=
  diagnoses (state w') = diagnoses (state w) /\
  patientDetails (state w') = patientDetails (state w) /\
  loading (state w') = loading (state w) /\
  refreshing (state w') = refreshing (state w) /\
  alerts w' = alerts w /\
  goBackCalls w' = goBackCalls w /\
  getPatientDataCalls w' = getPatientDataCalls w /\
  getPatientHistoryCalls w' = getPatientHistoryCalls w.

End Screen.

(* ===================================================================== *)
(** ** Shapes of the strings [formatDate] builds *)
(* ===================================================================== *)

Module Shapes.

Definition digitChar (d : Z) : ascii := ascii_of_nat (48 + Z.to_nat d).

Definition twoDigits (n : Z) : string :=
  String (digitChar (n / 10)) (String (digitChar (n mod 10)) "").

Definition fourDigits (n : Z) : string :=
  String (digitChar (n / 1000))
    (String (digitChar (n / 100 mod 10)) (twoDigits (n mod 100))).

Definition isDigit (c : ascii) : bool :=
  match digitValue c with
  | Some _ => true
  | None => false
  end.

(** Four digits, a hyphen, two digits, a hyphen, two digits. *)
Definition isYYYYMMDD (s : string) : bool :=
  match list_ascii_of_string s with
  | [y1; y2; y3; y4; h1; m1; m2; h2; d1; d2] =>
      isDigit y1 && isDigit y2 && isDigit y3 && isDigit y4 &&
      Ascii.eqb h1 "-" && isDigit m1 && isDigit m2 &&
      Ascii.eqb h2 "-" && isDigit d1 && isDigit d2
  | _ => false
  end.

(** A test run on every integer of [lo, lo + n), and of [lo, hi). *)
Fixpoint allFrom (n : nat) (p : Z -> bool) (lo : Z) : bool :=
  match n with
  | O => true
  | S k => p lo && allFrom k p (lo + 1)
  end.

Definition allBetween (lo hi : Z) (p : Z -> bool) : bool :=
  allFrom (Z.to_nat (hi - lo)) p lo.

End Shapes.

(* ===================================================================== *)
(** ** Calendar days and their date-only strings *)
(* ===================================================================== *)

Module Calendar.

Import Shapes.

(** Days of month [m] (1 to 12) of year [y]. *)
Definition daysInMonth (y m : Z) : Z :=
  match m with
  | 2 => if isLeap y then 29 else 28
  | 4 | 6 | 9 | 11 => 30
  | _ => 31
  end.

(** The date-only string [YYYY-MM-DD] of a calendar day. *)
Definition dateOnly (y m d : Z) : string :=
  fourDigits y ++ "-" ++ twoDigits m ++ "-" ++ twoDigits d.

(** The calendar day before [(y, m, d)]. *)
Definition dayBefore (y m d : Z) : Z * Z * Z :=
  if 1 <? d then (y, m, d - 1)
  else if 1 <? m then (y, m - 1, daysInMonth y (m - 1))
  else (y - 1, 12, 31).

End Calendar.

(* ===================================================================== *)
(** ** Traces of the mounted screen *)
(* ===================================================================== *)

Module Traces.

Import Screen.

(** The value of [diagnoses] after a trace: the list of its last fulfilled
    list fetch, [current] when there is none. *)
Fixpoint diagnosesAfter (evs : list Event) (current : list Diagnosis) : list Diagnosis :=
  match evs with
  | [] => current
  | HistorySettles (Fulfilled historyData) :: rest =>
      diagnosesAfter rest (map truncated historyData)
  | _ :: rest => diagnosesAfter rest current
  end.

(** The value of [patientDetails] after a trace. *)
Fixpoint recordAfter (evs : list Event) (current : option PatientDetails) : option PatientDetails :=
  match evs with
  | [] => current
  | DataSettles (Fulfilled data) :: rest => recordAfter rest (Some data)
  | _ :: rest => recordAfter rest current
  end.

(** The errors of the rejected fetches of a trace, oldest first. *)
Fixpoint failures (evs : list Event) : list Error :=
  match evs with
  | [] => []
  | DataSettles (Rejected e) :: rest => e :: failures rest
  | HistorySettles (Rejected e) :: rest => e :: failures rest
  | _ :: rest => failures rest
  end.

(** The alert a failure is reported with. *)
Definition alertOf (e : Error) : string * string := ("Error", message e).

Definition isRefresh (ev : Event) : bool :=
  match ev with
  | User Refresh => true
  | _ => false
  end.

(** More list fetches were issued than have settled. *)
Definition listFetchPending (sys : System) : Prop :=
  (historySettled sys < getPatientHistoryCalls (world sys))%nat.

(** While the activity indicator is shown nothing of the list interaction
    has happened yet. *)
Definition quietWhileLoading (sys : System) : Prop :=
  loading (state (world sys)) = true ->
  refreshing (state (world sys)) = false /\
  pressedDiagnosisId (state (world sys)) = None /\
  animations (world sys) = [] /\
  getPatientHistoryCalls (world sys) = 1%nat.

(** No diagnoses and no list fetch in flight. *)
Definition emptyAndIdle (sys : System) : Prop :=
  diagnoses (state (world sys)) = [] /\
  historySettled sys = getPatientHistoryCalls (world sys).

End Traces.

(* ===================================================================== *)
(** ** What a rendered tree shows *)
(* ===================================================================== *)

Module Views.

Import Screen.

(** The children of the text elements of a tree, in order; the one child
    of a [Text] is a string. *)
Fixpoint shown (e : Element) : list TextChild :=
  match e with
  | SafeAreaView cs | View cs | Fragment cs => flat_map shown cs
  | Text c => [ChildString c]
  | TextOf cs => cs
  | ActivityIndicator | RefreshControl _ _ => []
  | AnimatedView _ cs => flat_map shown cs
  | TouchableOpacity _ _ _ cs => flat_map shown cs
  | FlatList _ rows rc => (flat_map shown rows ++ shown rc)%list
  end.

(** The two cells of a row. *)
Definition rowShown (h : Host) (item : Diagnosis) : list TextChild :=
  [ChildString (formatDate h (date item)); ChildString (time item)].

(** The labels and values of the patient block; the age and the height are
    number children, each followed by its unit. *)
Definition patientShown (p : PatientDetails) : list TextChild :=
  [ChildString "Nombre"; ChildString (name p);
   ChildString "Teléfono"; ChildString (phone p);
   ChildString "Correo electrónico"; ChildString (email p);
   ChildString "Edad"; ChildNumber (age p); ChildString " años";
   ChildString "Sexo"; ChildString (sex p);
   ChildString "Altura"; ChildNumber (height p); ChildString " cm"].

(** The keys given to the lists of a tree. *)
Fixpoint listKeys (e : Element) : list string :=
  match e with
  | SafeAreaView cs | View cs | Fragment cs => flat_map listKeys cs
  | Text _ | TextOf _ | ActivityIndicator | RefreshControl _ _ => []
  | AnimatedView _ cs => flat_map listKeys cs
  | TouchableOpacity _ _ _ cs => flat_map listKeys cs
  | FlatList keys rows rc => (keys ++ flat_map listKeys rows ++ listKeys rc)%list
  end.

(** How many rows of a tree carry the press transform. *)
Fixpoint scaledRows (e : Element) : nat :=
  match e with
  | SafeAreaView cs | View cs | Fragment cs => list_sum (map scaledRows cs)
  | Text _ | TextOf _ | ActivityIndicator | RefreshControl _ _ => 0
  | AnimatedView scaled cs =>
      ((if scaled then 1 else 0) + list_sum (map scaledRows cs))%nat
  | TouchableOpacity _ _ _ cs => list_sum (map scaledRows cs)
  | FlatList _ rows rc => (list_sum (map scaledRows rows) + scaledRows rc)%nat
  end.

(** The history ids of a list are all safe integers. *)
Definition safeIds (l : list Diagnosis) : Prop :=
  Forall (fun item => isSafeInteger (history_id item) = true) l.

End Views.

(* ===================================================================== *)
(** ** The History screen *)
(* ===================================================================== *)

Module History.

(** Modelled from the spec: [RootStackParamList], which types
    [route.params], is declared in [./PatientDetailScreen] and is missing.
    [date] and [time] are passed to [formatDateAndTime] and are strings;
    the other fields follow the patient record of the specification:
    names and sex as strings, [age] and [height] as numbers. *)
Record RouteParams : Type := mkParams {
  patientName : string;
  doctorName : string;
  date : string;
  time : string;
  age : number;
  sex : string;
  height : number
}.

(** A child of a [Text]: a string, or a number that React prints. *)
Inductive TextChild : Type :=
| ChildString (s : string)
| ChildNumber (n : number).

Inductive Node : Type :=
| View (children : list Node)
| Text (content : string)
| TextOf (children : list TextChild)
| ScrollView (children : list Node).

(** A [View] styled [analysisBox]: a label and a value. *)
Definition analysisBox (label value : string) : Node :=
  View [Text label; Text value].

(** [HistoryPatientScreen], without style props; [importedFormatDate] is
    the [formatDate] of [./PatientDetailScreen]. *)
Definition HistoryPatientScreen (importedFormatDate : string -> string)
    (params : RouteParams) : Node :=
  View
    [View
       [View
          [View
             [View [Text "Nombre"; Text (patientName params)];
              View [Text "Médico responsable"; Text (doctorName params)];
              View [Text "Fecha y Hora";
                    Text (formatDateAndTime importedFormatDate
                            (date params) (time params))]];
           View
             [View [Text "Edad";
                    TextOf [ChildNumber (age params); ChildString " años"]];
              View [Text "Sexo"; Text (sex params)];
              View [Text "Altura";
                    TextOf [ChildNumber (height params); ChildString " cm"]]]];
        View [];
        Text "Resultados del análisis";
        ScrollView
          [View
             [analysisBox "Masa Libre de Grasa Total (MLGT)" "55.2 kg";
              analysisBox "Agua Total del Cuerpo (ACT)" "42.8 L";
              analysisBox "Agua Intracelular (ICW)" "28.3 L";
              analysisBox "Agua Extracelular (ECW)" "14.5 L";
              analysisBox "Porcentaje de Minerales (MINE)" "4.7%";
              analysisBox "Masa Grasa (MG)" "18.5 kg";
              analysisBox "Porcentaje de Masa Grasa (PMG)" "24.3%";
              analysisBox "Índice de Masa Corporal (IMC)" "22.8 kg/m²";
              analysisBox "Masa Muscular (MM)" "32.5 kg";
              analysisBox "Proteínas (PRO)" "10.1 kg"]]]].

(** The strings among the children of a text element. *)
Definition childStrings (cs : list TextChild) : list string :=
  flat_map (fun c => match c with
                     | ChildString s => [s]
                     | ChildNumber _ => []
                     end) cs.

(** The texts of a tree, and those inside its scroll views. *)
Fixpoint texts (n : Node) : list string :=
  match n with
  | View cs | ScrollView cs => flat_map texts cs
  | Text c => [c]
  | TextOf cs => childStrings cs
  end.

Fixpoint scrolledTexts (n : Node) : list string :=
  match n with
  | View cs => flat_map scrolledTexts cs
  | Text _ | TextOf _ => []
  | ScrollView cs => flat_map texts cs
  end.

(** The children of the text elements outside the scroll views, in order. *)
Fixpoint headShown (n : Node) : list TextChild :=
  match n with
  | View cs => flat_map headShown cs
  | Text c => [ChildString c]
  | TextOf cs => cs
  | ScrollView _ => []
  end.

End History.

(* ===================================================================== *)
(** * Properties *)
(* ===================================================================== *)

Import Screen Shapes.

(** ** The calendar of the Date object *)

Module DateFacts.

Lemma isLeap_true_iff y :
  isLeap y = true <-> (y mod 4 = 0 /\ (y mod 100 <> 0 \/ y mod 400 = 0)).
Proof.
  unfold isLeap.
  destruct (Z.eqb_spec (y mod 4) 0), (Z.eqb_spec (y mod 100) 0),
    (Z.eqb_spec (y mod 400) 0); cbn [negb]; intuition (congruence || lia).
Qed.

Lemma DayFromYear_step y : DayFromYear (y + 1) = DayFromYear y + DaysInYear y.
Proof.
  unfold DayFromYear, DaysInYear.
  destruct (isLeap y) eqn:E.
  - apply isLeap_true_iff in E. Z.div_mod_to_equations. lia.
  - assert (N : ~ (y mod 4 = 0 /\ (y mod 100 <> 0 \/ y mod 400 = 0))).
    { rewrite <- isLeap_true_iff. congruence. }
    Z.div_mod_to_equations. lia.
Qed.

Lemma DayFromYear_mono y y' : y <= y' -> DayFromYear y <= DayFromYear y'.
Proof. intros H. unfold DayFromYear. Z.div_mod_to_equations. lia. Qed.

Lemma YearFromDay_spec d :
  DayFromYear (YearFromDay d) <= d < DayFromYear (YearFromDay d + 1).
Proof.
  unfold YearFromDay.
  set (y0 := 1970 + d * 400 / 146097).
  destruct (Z.ltb_spec d (DayFromYear y0)).
  - replace (y0 - 1 + 1) with y0 by lia. split; [|lia].
    unfold DayFromYear in *. subst y0. Z.div_mod_to_equations. lia.
  - destruct (Z.leb_spec (DayFromYear (y0 + 1)) d).
    + split; [lia|].
      unfold DayFromYear in *. subst y0. Z.div_mod_to_equations. lia.
    + lia.
Qed.

(** [YearFromTime t] is the year of the standard: the largest [y] whose
    first instant is not after [t]. *)
Lemma YearFromTime_spec t :
  TimeFromYear (YearFromTime t) <= t /\
  forall y, TimeFromYear y <= t -> y <= YearFromTime t.
Proof.
  unfold YearFromTime, TimeFromYear.
  pose proof (YearFromDay_spec (Day t)) as [Hlo Hhi].
  assert (Hd : msPerDay * Day t <= t < msPerDay * Day t + msPerDay).
  { unfold Day, msPerDay. Z.div_mod_to_equations. lia. }
  split.
  - unfold msPerDay in *. lia.
  - intros y Hy.
    destruct (Z.le_gt_cases y (YearFromDay (Day t))) as [|Hgt]; [assumption|].
    pose proof (DayFromYear_mono (YearFromDay (Day t) + 1) y ltac:(lia)).
    unfold msPerDay in *. lia.
Qed.

Lemma DayWithinYear_range t :
  0 <= DayWithinYear t < DaysInYear (YearFromTime t).
Proof.
  unfold DayWithinYear, YearFromTime.
  pose proof (YearFromDay_spec (Day t)) as [Hlo Hhi].
  rewrite DayFromYear_step in Hhi. lia.
Qed.

Lemma InLeapYear_DaysInYear t : DaysInYear (YearFromTime t) = 365 + InLeapYear t.
Proof. unfold DaysInYear, InLeapYear. destruct (isLeap _); reflexivity. Qed.

Lemma InLeapYear_range t : 0 <= InLeapYear t <= 1.
Proof. unfold InLeapYear. destruct (isLeap _); lia. Qed.

Ltac month_cases :=
  repeat match goal with
         | |- context [if ?a <? ?b then _ else _] => destruct (Z.ltb_spec a b)
         end.

Lemma MonthFromTime_range t : 0 <= MonthFromTime t <= 11.
Proof. unfold MonthFromTime. month_cases; lia. Qed.

Lemma DateFromTime_range t : 1 <= DateFromTime t <= 31.
Proof.
  pose proof (DayWithinYear_range t) as Hd.
  rewrite InLeapYear_DaysInYear in Hd.
  pose proof (InLeapYear_range t) as Hl.
  unfold DateFromTime, MonthFromTime.
  month_cases; cbv iota beta; lia.
Qed.

(** The calendar fields of a time value depend on its day number only. *)
Lemma fields_of_Day t t' :
  Day t = Day t' ->
  YearFromTime t = YearFromTime t' /\ MonthFromTime t = MonthFromTime t' /\
  DateFromTime t = DateFromTime t'.
Proof.
  intros E.
  assert (Ey : YearFromTime t = YearFromTime t')
    by (unfold YearFromTime; now rewrite E).
  assert (Ew : DayWithinYear t = DayWithinYear t')
    by (unfold DayWithinYear; now rewrite E, Ey).
  assert (El : InLeapYear t = InLeapYear t')
    by (unfold InLeapYear; now rewrite Ey).
  assert (Em : MonthFromTime t = MonthFromTime t')
    by (unfold MonthFromTime; now rewrite Ew, El).
  repeat split; try assumption.
  unfold DateFromTime. now rewrite Em, Ew, El.
Qed.

(** An offset of less than a day added to a midnight stays on its day. *)
Lemma Day_same_day t off :
  TimeWithinDay t = 0 -> 0 <= off < msPerDay -> Day (t + off) = Day t.
Proof.
  unfold TimeWithinDay, Day, msPerDay. intros H0 Hoff.
  Z.div_mod_to_equations. lia.
Qed.

End DateFacts.

Import DateFacts.

(** ** Digits *)

Lemma allFrom_spec n p : forall lo,
  allFrom n p lo = true -> forall z, lo <= z < lo + Z.of_nat n -> p z = true.
Proof.
  induction n as [|k IH]; intros lo H z Hz.
  - simpl in Hz. lia.
  - cbn [allFrom] in H. apply andb_true_iff in H as [H0 H1].
    destruct (Z.eq_dec z lo) as [->|Hne]; [assumption|].
    apply (IH (lo + 1)); [assumption | lia].
Qed.

Lemma allBetween_spec lo hi p :
  allBetween lo hi p = true -> forall z, lo <= z < hi -> p z = true.
Proof.
  intros H z Hz. apply (allFrom_spec _ _ _ H). lia.
Qed.

Lemma padStart_two n :
  0 <= n <= 99 -> padStart (decimal n) 2 "0" = twoDigits n.
Proof.
  intros Hn.
  assert (C : allBetween 0 100
                (fun z => String.eqb (padStart (decimal z) 2 "0") (twoDigits z))
              = true) by (vm_compute; reflexivity).
  apply String.eqb_eq. apply (allBetween_spec _ _ _ C). lia.
Qed.

Lemma decimal_four n :
  1000 <= n <= 9999 -> decimal n = fourDigits n.
Proof.
  intros Hn.
  assert (C : allBetween 1000 10000
                (fun z => String.eqb (decimal z) (fourDigits z))
              = true) by (vm_compute; reflexivity).
  apply String.eqb_eq. apply (allBetween_spec _ _ _ C). lia.
Qed.

Lemma isDigit_digitChar d : 0 <= d <= 9 -> isDigit (digitChar d) = true.
Proof.
  intros Hd.
  assert (C : allBetween 0 10 (fun z => isDigit (digitChar z)) = true)
    by (vm_compute; reflexivity).
  apply (allBetween_spec _ _ _ C). lia.
Qed.

Lemma isYYYYMMDD_digits y m d :
  1000 <= y <= 9999 -> 0 <= m <= 99 -> 0 <= d <= 99 ->
  isYYYYMMDD (fourDigits y ++ "-" ++ twoDigits m ++ "-" ++ twoDigits d) = true.
Proof.
  intros Hy Hm Hd. unfold isYYYYMMDD, fourDigits, twoDigits.
  cbn [append list_ascii_of_string].
  rewrite !isDigit_digitChar; [reflexivity | ..];
    Z.div_mod_to_equations; lia.
Qed.

(** ** [formatDate] and [formatDateAndTime] *)

Lemma formatDate_NaN h d : parse h d = NaN -> formatDate h d = "NaN-NaN-NaN".
Proof.
  intros E. unfold formatDate, newDate, getFullYear, getMonth, getDate, localField.
  cbn [DateValue]. rewrite E. reflexivity.
Qed.

Lemma formatDate_Int h d t :
  parse h d = Int t ->
  formatDate h d =
    decimal (YearFromTime (LocalTime h t)) ++ "-" ++
    twoDigits (MonthFromTime (LocalTime h t) + 1) ++ "-" ++
    twoDigits (DateFromTime (LocalTime h t)).
Proof.
  intros E. unfold formatDate, newDate, getFullYear, getMonth, getDate, localField.
  cbn [DateValue]. rewrite E. cbn [add ToString].
  pose proof (MonthFromTime_range (LocalTime h t)).
  pose proof (DateFromTime_range (LocalTime h t)).
  rewrite !padStart_two by lia. reflexivity.
Qed.

(** Every string yields either the NaN text or the three local fields. *)
Lemma formatDate_total h d :
  formatDate h d = "NaN-NaN-NaN" \/
  exists t, parse h d = Int t /\
            formatDate h d =
              decimal (YearFromTime (LocalTime h t)) ++ "-" ++
              twoDigits (MonthFromTime (LocalTime h t) + 1) ++ "-" ++
              twoDigits (DateFromTime (LocalTime h t)).
Proof.
  destruct (parse h d) as [|t] eqn:E.
  - left. now apply formatDate_NaN.
  - right. exists t. split; [reflexivity | now apply formatDate_Int].
Qed.

(** C4, as amended. For every string [d] of the Date Time String Format
    whose time value [t] lies in the range of Date, [formatDate d] is the
    local year in decimal without padding, a hyphen, the local month
    (1 to 12) on two digits, a hyphen and the local day of the month (1 to
    31) on two digits. When the local year is between 1000 and 9999 the
    year has four digits and the result has the ten-character form
    [YYYY-MM-DD]. *)
Theorem formatDate_iso (h : Host) (d : string) (f : IsoFields) (t : Z) :
  parseISO d = Some f ->
  isoTimeValue h f = Int t ->
  let year := YearFromTime (LocalTime h t) in
  let month := MonthFromTime (LocalTime h t) + 1 in
  let day := DateFromTime (LocalTime h t) in
  formatDate h d = decimal year ++ "-" ++ twoDigits month ++ "-" ++ twoDigits day
  /\ 1 <= month <= 12 /\ 1 <= day <= 31
  /\ (1000 <= year <= 9999 ->
      formatDate h d =
        fourDigits year ++ "-" ++ twoDigits month ++ "-" ++ twoDigits day
      /\ isYYYYMMDD (formatDate h d) = true).
Proof.
  intros Hp Hv year month day.
  assert (E : parse h d = Int t) by (unfold parse; rewrite Hp; exact Hv).
  pose proof (MonthFromTime_range (LocalTime h t)) as Hm.
  pose proof (DateFromTime_range (LocalTime h t)) as Hd.
  rewrite (formatDate_Int _ _ _ E). fold year month day.
  repeat split; try (subst month day; lia).
  - rewrite decimal_four by assumption. reflexivity.
  - rewrite decimal_four by assumption.
    apply isYYYYMMDD_digits; subst month day; lia.
Qed.

(** An instant late on 5 March at UTC-06:00 is 6 March in Madrid. *)
Lemma formatDate_iso_witness :
  parseISO "2024-03-05T23:30:00-06:00"
    = Some (mkIso 2024 3 5 (Some (23, 30, 0, 0)) (Some (-360)))
  /\ formatDate madridWinterHost "2024-03-05T23:30:00-06:00" = "2024-03-06".
Proof.
  split; [reflexivity|].
  exact (proj1 (formatDate_iso madridWinterHost "2024-03-05T23:30:00-06:00"
                  (mkIso 2024 3 5 (Some (23, 30, 0, 0)) (Some (-360)))
                  1709703000000 eq_refl eq_refl)).
Defined.

(** C4 as stated fails below the year 1000: the year is not padded, so the
    valid date string [0999-06-15] comes back as [999-06-15]. *)
Lemma formatDate_short_year :
  parseISO "0999-06-15" = Some (mkIso 999 6 15 None None) /\
  formatDate utcHost "0999-06-15" = "999-06-15" /\
  isYYYYMMDD (formatDate utcHost "0999-06-15") = false.
Proof. split; [|split]; vm_compute; reflexivity. Qed.

(** C9. [formatDate] is a total function of its string (nothing it calls
    can throw). When the string does not parse, the time value of the Date
    is NaN, so are the three calendar fields read from it, and the result is
    the text [NaN-NaN-NaN]. *)
Theorem formatDate_unparseable (h : Host) (d : string) :
  parse h d = NaN ->
  getFullYear h (newDate h d) = NaN /\
  getMonth h (newDate h d) = NaN /\
  getDate h (newDate h d) = NaN /\
  ToString (add (getMonth h (newDate h d)) (Int 1)) = "NaN" /\
  formatDate h d = "NaN-NaN-NaN".
Proof.
  intros E. split; [|split; [|split; [|split]]];
    try (unfold getFullYear, getMonth, getDate, localField, newDate;
         cbn [DateValue]; rewrite E; reflexivity).
  now apply formatDate_NaN.
Qed.

Lemma formatDate_unparseable_witness :
  parse utcHost "not a date" = NaN /\
  formatDate utcHost "not a date" = "NaN-NaN-NaN".
Proof.
  split; [reflexivity|].
  apply (formatDate_unparseable utcHost "not a date"). reflexivity.
Defined.



(** ** The fetch routines *)

(** C1. When a list fetch succeeds, its continuation, from any world (any
    earlier [diagnoses], empty included), completes normally, sets
    [diagnoses] to the returned sequence with every entry cut down to
    [history_id], [date] and [time], in the order of the service (so of the
    same length, entry by entry), and sets [refreshing] to false. The same
    holds for the whole routine run at mount and for a refresh followed by
    the settlement of its fetch. *)
Theorem fetchPatientHistory_success (w : World) (historyData : list HistoryItem) :
  let w' := exec (fetchPatientHistory_resume (Fulfilled historyData)) w in
  completion (fetchPatientHistory_resume (Fulfilled historyData)) w = Normal tt /\
  diagnoses (state w') = map truncated historyData /\
  List.length (diagnoses (state w')) = List.length historyData /\
  (forall i, nth_error (diagnoses (state w')) i =
             option_map truncated (nth_error historyData i)) /\
  refreshing (state w') = false /\
  diagnoses (state (exec (fetchPatientHistory (Fulfilled historyData)) w)) =
    map truncated historyData /\
  refreshing (state (exec (fetchPatientHistory (Fulfilled historyData)) w)) = false /\
  diagnoses
    (state (exec (onRefresh ;; fetchPatientHistory_resume (Fulfilled historyData))%js w)) =
    map truncated historyData /\
  refreshing
    (state (exec (onRefresh ;; fetchPatientHistory_resume (Fulfilled historyData))%js w)) =
    false.
Proof.
  cbn. repeat split.
  - apply length_map.
  - intros i. apply nth_error_map.
Qed.

(** C2. When a list fetch fails, its continuation completes normally, shows
    one alert titled [Error] with the message of the failure, sets
    [refreshing] to false and leaves [diagnoses] as it was; so does a
    refresh whose fetch fails. *)
Theorem fetchPatientHistory_failure (w : World) (error : Error) :
  let w' := exec (fetchPatientHistory_resume (Rejected error)) w in
  completion (fetchPatientHistory_resume (Rejected error)) w = Normal tt /\
  alerts w' = (alerts w ++ [("Error", message error)])%list /\
  refreshing (state w') = false /\
  diagnoses (state w') = diagnoses (state w) /\
  diagnoses
    (state (exec (onRefresh ;; fetchPatientHistory_resume (Rejected error))%js w)) =
    diagnoses (state w) /\
  refreshing
    (state (exec (onRefresh ;; fetchPatientHistory_resume (Rejected error))%js w)) =
    false.
Proof. cbn. repeat split. Qed.

(** *** The record fetch along a run *)

Lemma fire_record h ev sys sys' :
  fire h ev sys = Some sys' ->
  (dataSettled sys <= getPatientDataCalls (world sys))%nat ->
  getPatientDataCalls (world sys') = getPatientDataCalls (world sys) /\
  dataSettled sys' = (dataSettled sys + count isDataSettles [ev])%nat /\
  (dataSettled sys' <= getPatientDataCalls (world sys'))%nat /\
  goBackCalls (world sys') =
    (goBackCalls (world sys) + count isDataRejected [ev])%nat.
Proof.
  destruct ev as [p | p | ev]; cbn [fire].
  - destruct (Nat.ltb_spec (dataSettled sys) (getPatientDataCalls (world sys)));
      [|discriminate].
    intros [= <-] _. destruct p; cbn; repeat split; lia.
  - destruct (_ <? _)%nat; [|discriminate].
    intros [= <-] Hle. destruct p; cbn; repeat split; lia.
  - destruct (existsb _ _); [|discriminate].
    intros [= <-] Hle. destruct ev; cbn; repeat split; lia.
Qed.

Lemma run_record h evs : forall sys sys',
  run h evs sys = Some sys' ->
  (dataSettled sys <= getPatientDataCalls (world sys))%nat ->
  getPatientDataCalls (world sys') = getPatientDataCalls (world sys) /\
  dataSettled sys' = (dataSettled sys + count isDataSettles evs)%nat /\
  (dataSettled sys' <= getPatientDataCalls (world sys'))%nat /\
  goBackCalls (world sys') =
    (goBackCalls (world sys) + count isDataRejected evs)%nat.
Proof.
  induction evs as [|ev rest IH]; intros sys sys' H Hle; cbn [run] in H.
  - injection H as <-. cbn. repeat split; lia.
  - destruct (fire h ev sys) as [sys1|] eqn:F; [|discriminate].
    destruct (fire_record _ _ _ _ F Hle) as (C1 & S1 & L1 & G1).
    destruct (IH _ _ H L1) as (C2 & S2 & L2 & G2).
    unfold count in *. cbn [filter] in *.
    destruct (isDataSettles ev), (isDataRejected ev); cbn [List.length] in *;
      repeat split; lia.
Qed.

(** C3. When the record fetch fails, its continuation sets [loading] to
    false, shows one alert titled [Error] with the message of the failure
    and calls [navigation.goBack()] once. When it succeeds, the record is
    stored, [loading] is set to false, and neither an alert nor a
    [goBack()] call is made. Along any run of the mounted screen the record
    fetch settles at most once, and [goBack()] has been called once for a
    failed settlement and never otherwise. *)
Theorem fetchPatientData_settles (w : World) :
  (forall error : Error,
      let w' := exec (fetchPatientData_resume (Rejected error)) w in
      completion (fetchPatientData_resume (Rejected error)) w = Normal tt /\
      loading (state w') = false /\
      alerts w' = (alerts w ++ [("Error", message error)])%list /\
      goBackCalls w' = S (goBackCalls w)) /\
  (forall data : PatientDetails,
      let w' := exec (fetchPatientData_resume (Fulfilled data)) w in
      completion (fetchPatientData_resume (Fulfilled data)) w = Normal tt /\
      patientDetails (state w') = Some data /\
      loading (state w') = false /\
      goBackCalls w' = goBackCalls w /\
      alerts w' = alerts w) /\
  (forall h evs sys,
      run h evs mounted = Some sys ->
      (count isDataSettles evs <= 1)%nat /\
      goBackCalls (world sys) = count isDataRejected evs).
Proof.
  split; [|split].
  - intros error. cbn. repeat split.
  - intros data. cbn. repeat split.
  - intros h evs sys H.
    destruct (run_record h evs mounted sys H) as (C & S & L & G).
    { cbn. lia. }
    cbn in C, S, G. rewrite C in L. split; lia.
Qed.

Lemma fetchPatientData_settles_witness :
  run utcHost [DataSettles (Rejected (mkError "not found"));
               HistorySettles (Fulfilled [])] mounted
  = Some (mkSystem
            (mkWorld (mkState [] None false false None)
                     [("Error", "not found")] 1 [] 1 1)
            1 1)
  /\ goBackCalls
       (mkWorld (mkState [] None false false None)
                [("Error", "not found")] 1 [] 1 1) = 1%nat.
Proof.
  split; [reflexivity|].
  exact (proj2 (proj2 (proj2 (fetchPatientData_settles initialWorld))
                  utcHost
                  [DataSettles (Rejected (mkError "not found"));
                   HistorySettles (Fulfilled [])]
                  _ eq_refl)).
Defined.

(** ** Refresh and row presses *)

(** C7. [onRefresh] sets [refreshing] to true and issues one call of
    [getPatientHistory] and none of [getPatientData]; it leaves the other
    four state cells alone. When the fetch it started settles, either way,
    the patient record, [loading] and the pressed row are still as they
    were before the refresh and the record has not been fetched again:
    a refresh writes [refreshing] and [diagnoses] only. *)
Theorem onRefresh_frame (w : World) :
  let w1 := exec onRefresh w in
  completion onRefresh w = Normal tt /\
  refreshing (state w1) = true /\
  getPatientHistoryCalls w1 = S (getPatientHistoryCalls w) /\
  getPatientDataCalls w1 = getPatientDataCalls w /\
  diagnoses (state w1) = diagnoses (state w) /\
  patientDetails (state w1) = patientDetails (state w) /\
  loading (state w1) = loading (state w) /\
  pressedDiagnosisId (state w1) = pressedDiagnosisId (state w) /\
  forall p : Settled (list HistoryItem),
    let w2 := exec (fetchPatientHistory_resume p) w1 in
    getPatientDataCalls w2 = getPatientDataCalls w /\
    getPatientHistoryCalls w2 = S (getPatientHistoryCalls w) /\
    patientDetails (state w2) = patientDetails (state w) /\
    loading (state w2) = loading (state w) /\
    pressedDiagnosisId (state w2) = pressedDiagnosisId (state w).
Proof.
  cbn. repeat split; destruct p; reflexivity.
Qed.

(** C8. Press-in on the row [X] sets [pressedDiagnosisId] to [X]; press-out
    and press set it to none, whatever it was and whichever row is pressed.
    None of the three changes another state cell, shows an alert, navigates
    or calls the service. *)
Theorem row_press (w : World) (X : Z) :
  (pressedDiagnosisId (state (exec (handleRowPressIn X) w)) = Some X /\
   pressOnly w (exec (handleRowPressIn X) w)) /\
  (pressedDiagnosisId (state (exec handleRowPressOut w)) = None /\
   pressOnly w (exec handleRowPressOut w)) /\
  (pressedDiagnosisId (state (exec (handleRowPress X) w)) = None /\
   pressOnly w (exec (handleRowPress X) w)).
Proof. unfold pressOnly. cbn. repeat split. Qed.

(** ** Loading *)

Lemma fire_loading h ev sys sys' :
  fire h ev sys = Some sys' ->
  loading (state (world sys')) =
    loading (state (world sys)) && negb (isDataSettles ev).
Proof.
  destruct ev as [p | p | ev]; cbn [fire isDataSettles negb].
  - destruct (_ <? _)%nat; [|discriminate]. intros [= <-].
    destruct p; cbn; now rewrite andb_false_r.
  - destruct (_ <? _)%nat; [|discriminate]. intros [= <-].
    destruct p; cbn; now rewrite andb_true_r.
  - destruct (existsb _ _); [|discriminate]. intros [= <-].
    destruct ev; cbn; now rewrite andb_true_r.
Qed.

Lemma run_loading h evs : forall sys sys',
  run h evs sys = Some sys' ->
  loading (state (world sys')) =
    loading (state (world sys)) && negb (existsb isDataSettles evs).
Proof.
  induction evs as [|ev rest IH]; intros sys sys' H; cbn [run existsb] in *.
  - injection H as <-. now rewrite andb_true_r.
  - destruct (fire h ev sys) as [sys1|] eqn:F; [|discriminate].
    rewrite (IH _ _ H), (fire_loading _ _ _ _ F).
    rewrite negb_orb, andb_assoc. reflexivity.
Qed.

(** C6. [loading] is true at mount. In every state reached from there it is
    true exactly when the record fetch has not settled yet, whatever else
    (settlements of list fetches, user events) has happened. A pending
    record fetch can settle at any time, with either outcome, and that sets
    [loading] to false; no other event changes [loading]. *)
Theorem loading_until_record_settles (h : Host) :
  loading (state (world mounted)) = true /\
  (forall evs sys,
      run h evs mounted = Some sys ->
      loading (state (world sys)) = negb (existsb isDataSettles evs)) /\
  (forall sys p,
      (dataSettled sys < getPatientDataCalls (world sys))%nat ->
      exists sys', fire h (DataSettles p) sys = Some sys' /\
                   loading (state (world sys')) = false) /\
  (forall ev sys sys',
      fire h ev sys = Some sys' -> isDataSettles ev = false ->
      loading (state (world sys')) = loading (state (world sys))).
Proof.
  split; [reflexivity|]. split; [|split].
  - intros evs sys H. rewrite (run_loading _ _ _ _ H). reflexivity.
  - intros sys p Hp. cbn [fire].
    apply Nat.ltb_lt in Hp. rewrite Hp. eexists. split; [reflexivity|].
    destruct p; reflexivity.
  - intros ev sys sys' F E. rewrite (fire_loading _ _ _ _ F), E.
    now rewrite andb_true_r.
Qed.

Lemma loading_until_record_settles_witness :
  run utcHost [HistorySettles (Fulfilled []);
               DataSettles (Rejected (mkError "timeout"))] mounted
  = Some (mkSystem
            (mkWorld (mkState [] None false false None)
                     [("Error", "timeout")] 1 [] 1 1)
            1 1)
  /\ loading (mkState [] None false false None) = false.
Proof.
  split; [reflexivity|].
  exact (proj1 (proj2 (loading_until_record_settles utcHost))
           [HistorySettles (Fulfilled []);
            DataSettles (Rejected (mkError "timeout"))]
           _ eq_refl).
Defined.

(** ** What is rendered *)

Lemma PatientInfo_plain s :
  flat_map handlers (PatientInfo s) = [] /\
  flat_map refreshControls (PatientInfo s) = [] /\
  list_sum (map flatLists (PatientInfo s)) = 0%nat.
Proof. unfold PatientInfo. destruct (patientDetails s); repeat split. Qed.

Lemma render_loading h s :
  loading s = true -> render h s = SafeAreaView [View [ActivityIndicator]].
Proof. unfold render. now intros ->. Qed.

Lemma render_empty h s :
  loading s = false -> diagnoses s = [] ->
  render h s =
    SafeAreaView
      [View [View (PatientInfo s ++
                   [View []; Text "Historial de Diagnósticos";
                    Text noDiagnosesText])]].
Proof. unfold render. now intros -> ->. Qed.

Lemma render_list h s :
  loading s = false -> diagnoses s <> [] ->
  render h s =
    SafeAreaView
      [View [View (PatientInfo s ++
                   [View []; Text "Historial de Diagnósticos";
                    Fragment
                      [View [View [Text "Fecha"];
                             View [Text "Hora del Diagnóstico"]];
                       FlatList (map (keyExtractor h) (diagnoses s))
                         (map (renderDiagnosis h s) (diagnoses s))
                         (RefreshControl (refreshing s) Refresh)]])]].
Proof.
  unfold render. intros -> Hne.
  destruct (diagnoses s) as [|d ds]; [contradiction|]. reflexivity.
Qed.

(** With no diagnoses the tree has no list, no refresh control and no
    handler at all. *)
Lemma render_no_diagnoses h s :
  diagnoses s = [] ->
  flatLists (render h s) = 0%nat /\
  refreshControls (render h s) = [] /\
  handlers (render h s) = [].
Proof.
  intros E. destruct (PatientInfo_plain s) as (Hh & Hr & Hf).
  destruct (loading s) eqn:L.
  - rewrite (render_loading h s L). repeat split.
  - rewrite (render_empty h s L E).
    cbn [flatLists refreshControls handlers map flat_map list_sum].
    rewrite !app_nil_r, map_app, list_sum_app, !flat_map_app, Hh, Hr, Hf.
    repeat split.
Qed.

Lemma render_some_diagnoses h s :
  loading s = false -> diagnoses s <> [] ->
  In Refresh (handlers (render h s)) /\ refreshControls (render h s) <> [].
Proof.
  intros L Hne. destruct (PatientInfo_plain s) as (Hh & Hr & _).
  rewrite (render_list h s L Hne).
  cbn [refreshControls handlers flat_map].
  rewrite !app_nil_r, !flat_map_app, Hh, Hr.
  cbn [refreshControls handlers flat_map app].
  split.
  - rewrite !in_app_iff. cbn [In]. tauto.
  - intros C. apply (f_equal (@List.length _)) in C.
    rewrite !length_app in C. cbn [List.length] in C. lia.
Qed.

(** C10, as amended. Whenever [diagnoses] is empty the rendered tree has
    neither the list nor its refresh control, no handler raises a refresh,
    and the refresh event cannot be fired; the empty-state message is shown
    once [loading] is false. The refresh control is rendered, and refresh
    can be raised, exactly when [loading] is false and [diagnoses] is not
    empty. *)
Theorem empty_state_render (h : Host) (s : State) :
  (diagnoses s = [] ->
   flatLists (render h s) = 0%nat /\
   refreshControls (render h s) = [] /\
   ~ In Refresh (handlers (render h s)) /\
   (loading s = false -> In noDiagnosesText (texts (render h s)))) /\
  (In Refresh (handlers (render h s)) <->
   loading s = false /\ diagnoses s <> []) /\
  (refreshControls (render h s) <> [] <->
   loading s = false /\ diagnoses s <> []) /\
  (forall sys, diagnoses (state (world sys)) = [] ->
               fire h (User Refresh) sys = None).
Proof.
  assert (Spinner : loading s = true ->
                    handlers (render h s) = [] /\ refreshControls (render h s) = []).
  { intros L. rewrite (render_loading h s L). split; reflexivity. }
  split; [|split; [|split]].
  - intros E. destruct (render_no_diagnoses h s E) as (F & R & H).
    repeat split; try assumption.
    + rewrite H. intros [].
    + intros L. rewrite (render_empty h s L E). cbn [texts flat_map].
      rewrite !app_nil_r, flat_map_app. apply in_or_app. right.
      cbn [flat_map texts app In]. right. left. reflexivity.
  - split.
    + intros HIn. destruct (loading s) eqn:L.
      * destruct (Spinner eq_refl) as [H _]. rewrite H in HIn. destruct HIn.
      * split; [reflexivity|]. intros E.
        destruct (render_no_diagnoses h s E) as (_ & _ & H).
        rewrite H in HIn. destruct HIn.
    + intros [L Hne]. apply (render_some_diagnoses h s L Hne).
  - split.
    + intros HR. destruct (loading s) eqn:L.
      * destruct (Spinner eq_refl) as [_ H]. contradiction.
      * split; [reflexivity|]. intros E.
        destruct (render_no_diagnoses h s E) as (_ & H & _). contradiction.
    + intros [L Hne]. apply (render_some_diagnoses h s L Hne).
  - intros sys E. cbn [fire].
    destruct (render_no_diagnoses h _ E) as (_ & _ & H).
    rewrite H. reflexivity.
Qed.

Lemma empty_state_render_witness :
  diagnoses (mkState [] None false false None) = [] /\
  loading (mkState [] None false false None) = false /\
  In noDiagnosesText (texts (render utcHost (mkState [] None false false None))).
Proof.
  split; [reflexivity|]. split; [reflexivity|].
  destruct (proj1 (empty_state_render utcHost (mkState [] None false false None))
              eq_refl) as (_ & _ & _ & T).
  exact (T eq_refl).
Defined.

(** C10 as stated fails while the record is loading: at mount [diagnoses]
    is empty and the tree is the activity indicator alone, without the
    empty-state message. *)
Lemma spinner_hides_empty_message :
  diagnoses initialState = [] /\
  render utcHost initialState = SafeAreaView [View [ActivityIndicator]] /\
  ~ In noDiagnosesText (texts (render utcHost initialState)).
Proof. split; [reflexivity|]. split; [reflexivity|]. cbn. intros []. Qed.

(* ===================================================================== *)
(** * Further properties *)
(* ===================================================================== *)

Import Calendar Traces Views.

(** ** Calendar days and the fields read back from them *)

Lemma YearFromDay_unique d y :
  DayFromYear y <= d < DayFromYear (y + 1) -> YearFromDay d = y.
Proof.
  intros [Hlo Hhi].
  pose proof (YearFromDay_spec d) as [Slo Shi].
  destruct (Z.lt_trichotomy (YearFromDay d) y) as [Hlt | [-> | Hgt]];
    [exfalso | reflexivity | exfalso].
  - pose proof (DayFromYear_mono (YearFromDay d + 1) y ltac:(lia)). lia.
  - pose proof (DayFromYear_mono (y + 1) (YearFromDay d) ltac:(lia)). lia.
Qed.

(** A statement about a month index [mo] (from 0) and the month number
    [mo + 1], by cases on the twelve months. *)
Lemma month_cases_12 (P : Z -> Z -> Prop) mo :
  0 <= mo <= 11 ->
  P 0 1 -> P 1 2 -> P 2 3 -> P 3 4 -> P 4 5 -> P 5 6 -> P 6 7 -> P 7 8 ->
  P 8 9 -> P 9 10 -> P 10 11 -> P 11 12 -> P mo (mo + 1).
Proof.
  intros H. intros.
  assert (mo = 0 \/ mo = 1 \/ mo = 2 \/ mo = 3 \/ mo = 4 \/ mo = 5 \/ mo = 6 \/
          mo = 7 \/ mo = 8 \/ mo = 9 \/ mo = 10 \/ mo = 11) as C by lia.
  repeat (destruct C as [-> | C]; [assumption|]). subst. assumption.
Qed.

Ltac by_month mo Hmo :=
  pattern mo, (mo + 1); apply month_cases_12; [exact Hmo|..];
  cbn [daysInMonth daysBeforeMonth].

Lemma MakeDay_in_year y mo d :
  0 <= mo <= 11 ->
  MakeDay y mo d = DayFromYear y + daysBeforeMonth (isLeap y) mo + d - 1.
Proof.
  intros Hmo. unfold MakeDay.
  replace (mo / 12) with 0 by (Z.div_mod_to_equations; lia).
  replace (mo mod 12) with mo by (Z.div_mod_to_equations; lia).
  now rewrite Z.add_0_r.
Qed.

Lemma daysInMonth_range y m : 1 <= m <= 12 -> 28 <= daysInMonth y m <= 31.
Proof.
  intros Hm. replace m with (m - 1 + 1) by lia.
  pattern (m - 1), (m - 1 + 1). apply month_cases_12; [lia|..];
    cbn [daysInMonth]; destruct (isLeap y); lia.
Qed.

(** The fields of any instant of the day [MakeDay y mo d] are [y], [mo]
    and [d], when [d] is a day of that month. *)
Lemma MakeDay_fields t y mo d :
  0 <= mo <= 11 -> 1 <= d <= daysInMonth y (mo + 1) ->
  Day t = MakeDay y mo d ->
  YearFromTime t = y /\ MonthFromTime t = mo /\ DateFromTime t = d.
Proof.
  intros Hmo Hd E.
  assert (W : Day t = DayFromYear y + daysBeforeMonth (isLeap y) mo + d - 1)
    by (rewrite E; now apply MakeDay_in_year).
  assert (Y : YearFromTime t = y).
  { unfold YearFromTime. apply YearFromDay_unique. rewrite W, DayFromYear_step.
    unfold DaysInYear. revert Hd.
    by_month mo Hmo; destruct (isLeap y); cbv iota beta; lia. }
  assert (L : InLeapYear t = if isLeap y then 1 else 0)
    by (unfold InLeapYear; now rewrite Y).
  assert (D : DayWithinYear t = daysBeforeMonth (isLeap y) mo + d - 1)
    by (unfold DayWithinYear; rewrite Y, W; lia).
  assert (M : MonthFromTime t = mo).
  { unfold MonthFromTime. rewrite D, L. revert Hd.
    by_month mo Hmo; destruct (isLeap y); cbv iota beta; intros Hd;
      month_cases; lia. }
  repeat split; try assumption.
  unfold DateFromTime. rewrite M, D, L. revert Hd.
  by_month mo Hmo; destruct (isLeap y); cbv iota beta; lia.
Qed.

(** The day of the month never exceeds the length of the month. *)
Lemma DateFromTime_in_month t :
  DateFromTime t <= daysInMonth (YearFromTime t) (MonthFromTime t + 1).
Proof.
  pose proof (DayWithinYear_range t) as Hd.
  rewrite InLeapYear_DaysInYear in Hd.
  assert (L : InLeapYear t = if isLeap (YearFromTime t) then 1 else 0)
    by reflexivity.
  unfold DateFromTime, MonthFromTime. rewrite L in *.
  destruct (isLeap (YearFromTime t)) eqn:EL; month_cases;
    match goal with
    | |- context [daysInMonth _ (?k + 1)] =>
        let v := eval cbv in (k + 1) in change (k + 1) with v
    end;
    cbn [daysInMonth]; rewrite ?EL; cbv iota beta; lia.
Qed.

Lemma MakeDay_dayBefore y m d :
  1 <= m <= 12 -> 1 <= d <= daysInMonth y m ->
  let '(y', m', d') := dayBefore y m d in
  MakeDay y (m - 1) d - 1 = MakeDay y' (m' - 1) d' /\
  1 <= m' <= 12 /\ 1 <= d' <= daysInMonth y' m'.
Proof.
  intros Hm Hd. unfold dayBefore.
  destruct (Z.ltb_spec 1 d) as [Hd1 | Hd1].
  - rewrite !MakeDay_in_year by lia. repeat split; lia.
  - assert (d = 1) by lia. subst d.
    destruct (Z.ltb_spec 1 m) as [Hm1 | Hm1].
    + pose proof (daysInMonth_range y (m - 1) ltac:(lia)) as R.
      rewrite !MakeDay_in_year by lia.
      repeat split; try lia.
      assert (S : daysBeforeMonth (isLeap y) (m - 1) =
                  daysBeforeMonth (isLeap y) (m - 1 - 1) + daysInMonth y (m - 1)).
      { assert (C : m = 2 \/ m = 3 \/ m = 4 \/ m = 5 \/ m = 6 \/ m = 7 \/ m = 8 \/
                    m = 9 \/ m = 10 \/ m = 11 \/ m = 12) by lia.
        repeat (destruct C as [-> | C];
                [cbn [daysBeforeMonth daysInMonth Z.sub Z.add Z.opp Z.pos_sub
                        Pos.pred_double Z.succ_double Z.pred_double Z.double];
                 destruct (isLeap y); reflexivity|]).
        subst. cbn. destruct (isLeap y); reflexivity. }
      lia.
    + assert (m = 1) by lia. subst m.
      rewrite !MakeDay_in_year by lia.
      cbn [daysBeforeMonth daysInMonth Z.sub Z.add Z.opp Z.pos_sub
             Pos.pred_double Z.succ_double Z.pred_double Z.double].
      pose proof (DayFromYear_step (y - 1)) as S.
      replace (y - 1 + 1) with y in S by lia. unfold DaysInYear in S.
      destruct (isLeap (y - 1)); repeat split; lia.
Qed.

Lemma MakeDay_clip y mo d :
  0 <= y <= 9999 -> 0 <= mo <= 11 -> 1 <= d <= 31 ->
  -1000000 <= MakeDay y mo d <= 3000000.
Proof.
  intros Hy Hmo Hd. rewrite MakeDay_in_year by assumption.
  assert (B : 0 <= daysBeforeMonth (isLeap y) mo <= 335).
  { by_month mo Hmo; destruct (isLeap y); lia. }
  unfold DayFromYear. Z.div_mod_to_equations. lia.
Qed.

Lemma Day_shift D off k :
  k * msPerDay <= off < (k + 1) * msPerDay -> Day (D * msPerDay + off) = D + k.
Proof.
  unfold Day, msPerDay. intros H. Z.div_mod_to_equations. lia.
Qed.

Lemma MakeTime_in_day hh mi :
  0 <= hh <= 23 -> 0 <= mi <= 59 -> 0 <= MakeTime hh mi 0 0 < msPerDay.
Proof.
  unfold MakeTime, msPerHour, msPerMinute, msPerSecond, msPerDay. lia.
Qed.

(** ** Parsing the strings [formatDate] writes *)

Lemma digitValue_digitChar k : 0 <= k <= 9 -> digitValue (digitChar k) = Some k.
Proof.
  intros Hk.
  assert (C : allBetween 0 10
                (fun z => match digitValue (digitChar z) with
                          | Some v => v =? z
                          | None => false
                          end) = true) by (vm_compute; reflexivity).
  pose proof (allBetween_spec _ _ _ C k ltac:(lia)) as H. cbv beta in H.
  destruct (digitValue (digitChar k)); [|discriminate].
  apply Z.eqb_eq in H. now subst.
Qed.

Lemma readDigits_two n acc rest :
  0 <= n <= 99 ->
  readDigits 2 acc (digitChar (n / 10) :: digitChar (n mod 10) :: rest) =
    Some (100 * acc + n, rest).
Proof.
  intros Hn. cbn [readDigits].
  rewrite !digitValue_digitChar by (Z.div_mod_to_equations; lia).
  do 2 f_equal. Z.div_mod_to_equations. lia.
Qed.

Lemma readField_two lo hi n rest :
  0 <= n <= 99 -> lo <= n <= hi ->
  readField lo hi (digitChar (n / 10) :: digitChar (n mod 10) :: rest) =
    Some (n, rest).
Proof.
  intros Hn Hb. unfold readField. rewrite readDigits_two by assumption.
  replace (100 * 0 + n) with n by lia.
  destruct (Z.leb_spec lo n), (Z.leb_spec n hi); try lia. reflexivity.
Qed.

Lemma readYear_four y rest :
  0 <= y <= 9999 ->
  readYear (list_ascii_of_string (fourDigits y) ++ rest)%list = Some (y, rest).
Proof.
  intros Hy. unfold fourDigits, twoDigits.
  cbn [list_ascii_of_string app].
  assert (K : 0 <= y / 1000 <= 9) by (Z.div_mod_to_equations; lia).
  assert (R : forall k cs, 0 <= k <= 9 ->
                readYear (digitChar k :: cs) = readDigits 4 0 (digitChar k :: cs)).
  { intros k cs Hk.
    assert (C : k = 0 \/ k = 1 \/ k = 2 \/ k = 3 \/ k = 4 \/ k = 5 \/ k = 6 \/
                k = 7 \/ k = 8 \/ k = 9) by lia.
    repeat (destruct C as [-> | C]; [reflexivity|]). subst. reflexivity. }
  rewrite (R _ _ K). cbn [readDigits].
  rewrite !digitValue_digitChar by (Z.div_mod_to_equations; lia).
  do 2 f_equal. Z.div_mod_to_equations. lia.
Qed.

Lemma list_ascii_of_string_app s1 s2 :
  list_ascii_of_string (s1 ++ s2) =
    (list_ascii_of_string s1 ++ list_ascii_of_string s2)%list.
Proof. induction s1 as [|c s IH]; cbn; [reflexivity | now rewrite IH]. Qed.

Lemma parseISO_dateOnly y m d :
  0 <= y <= 9999 -> 1 <= m <= 12 -> 1 <= d <= 31 ->
  parseISO (dateOnly y m d) = Some (mkIso y m d None None).
Proof.
  intros Hy Hm Hd. unfold parseISO, dateOnly.
  rewrite list_ascii_of_string_app, readYear_four by assumption.
  unfold twoDigits. cbn [append list_ascii_of_string].
  rewrite readField_two by lia.
  rewrite readField_two by lia.
  reflexivity.
Qed.

Lemma parseISO_dateTime y m d hh mi :
  0 <= y <= 9999 -> 1 <= m <= 12 -> 1 <= d <= 31 ->
  0 <= hh <= 23 -> 0 <= mi <= 59 ->
  parseISO (dateOnly y m d ++ "T" ++ twoDigits hh ++ ":" ++ twoDigits mi) =
    Some (mkIso y m d (Some (hh, mi, 0, 0)) None).
Proof.
  intros Hy Hm Hd Hh Hi. unfold parseISO, dateOnly.
  rewrite !list_ascii_of_string_app, <- app_assoc, readYear_four by assumption.
  unfold twoDigits. cbn [append list_ascii_of_string app].
  rewrite readField_two by lia.
  rewrite readField_two by lia.
  cbn [readTail]. unfold readTime.
  rewrite readField_two by lia.
  rewrite readField_two by lia.
  destruct (Z.eqb_spec hh 24); [lia|]. reflexivity.
Qed.

Lemma parse_dateOnly h y m d :
  0 <= y <= 9999 -> 1 <= m <= 12 -> 1 <= d <= 31 ->
  parse h (dateOnly y m d) = Int (MakeDay y (m - 1) d * msPerDay).
Proof.
  intros Hy Hm Hd. unfold parse.
  rewrite parseISO_dateOnly by assumption.
  unfold isoTimeValue, MakeDate, TimeClip.
  cbn [isoYear isoMonth isoDay isoTime isoOffset].
  rewrite Z.add_0_r.
  pose proof (MakeDay_clip y (m - 1) d Hy ltac:(lia) Hd) as B.
  destruct (Z.ltb_spec 8640000000000000 (Z.abs (MakeDay y (m - 1) d * msPerDay)));
    [unfold msPerDay in *; lia | reflexivity].
Qed.

(** ** [formatDate] on the strings it writes *)

(** X1. On a host whose local time at the UTC midnight of a calendar day
    is at or ahead of UTC, [formatDate] returns the date-only string
    [YYYY-MM-DD] of that day (years 1000 to 9999) unchanged. *)
Theorem formatDate_dateOnly_ahead (h : Host) (y m d : Z) :
  1000 <= y <= 9999 -> 1 <= m <= 12 -> 1 <= d <= daysInMonth y m ->
  0 <= LocalTZA h (MakeDay y (m - 1) d * msPerDay) true < msPerDay ->
  formatDate h (dateOnly y m d) = dateOnly y m d.
Proof.
  intros Hy Hm Hd Hoff.
  pose proof (daysInMonth_range y m Hm) as R.
  rewrite (formatDate_Int h _ _ (parse_dateOnly h y m d ltac:(lia) Hm ltac:(lia))).
  destruct (MakeDay_fields (LocalTime h (MakeDay y (m - 1) d * msPerDay))
              y (m - 1) d) as (-> & -> & ->).
  - lia.
  - now replace (m - 1 + 1) with m by lia.
  - unfold LocalTime. rewrite (Day_shift _ _ 0) by lia. lia.
  - replace (m - 1 + 1) with m by lia. rewrite decimal_four by assumption.
    reflexivity.
Qed.

Lemma formatDate_dateOnly_ahead_witness :
  dateOnly 2024 2 29 = "2024-02-29" /\
  formatDate madridWinterHost (dateOnly 2024 2 29) = dateOnly 2024 2 29.
Proof.
  split; [reflexivity|].
  apply (formatDate_dateOnly_ahead madridWinterHost 2024 2 29);
    vm_compute; split; first [discriminate | reflexivity].
Defined.

(** X2. On a host whose local time at that UTC midnight is behind UTC (by
    at most a day), [formatDate] turns the date-only string of a calendar
    day into the day before: the previous day of the month, the last day of
    the previous month, or 31 December of the previous year. *)
Theorem formatDate_dateOnly_behind (h : Host) (y m d : Z) :
  1000 <= y <= 9999 -> 1 <= m <= 12 -> 1 <= d <= daysInMonth y m ->
  - msPerDay <= LocalTZA h (MakeDay y (m - 1) d * msPerDay) true < 0 ->
  formatDate h (dateOnly y m d) =
    let '(y', m', d') := dayBefore y m d in
    decimal y' ++ "-" ++ twoDigits m' ++ "-" ++ twoDigits d'.
Proof.
  intros Hy Hm Hd Hoff.
  pose proof (daysInMonth_range y m Hm) as R.
  rewrite (formatDate_Int h _ _ (parse_dateOnly h y m d ltac:(lia) Hm ltac:(lia))).
  pose proof (MakeDay_dayBefore y m d Hm Hd) as B.
  destruct (dayBefore y m d) as [[y' m'] d'].
  destruct B as (E & Hm' & Hd').
  destruct (MakeDay_fields (LocalTime h (MakeDay y (m - 1) d * msPerDay))
              y' (m' - 1) d') as (-> & -> & ->).
  - lia.
  - now replace (m' - 1 + 1) with m' by lia.
  - unfold LocalTime. rewrite (Day_shift _ _ (-1)) by (unfold msPerDay in *; lia).
    lia.
  - now replace (m' - 1 + 1) with m' by lia.
Qed.

Lemma formatDate_dateOnly_behind_witness :
  dateOnly 2024 3 1 = "2024-03-01" /\
  formatDate mexicoCityHost (dateOnly 2024 3 1) = "2024-02-29".
Proof.
  split; [reflexivity|].
  apply (formatDate_dateOnly_behind mexicoCityHost 2024 3 1);
    vm_compute; split; first [discriminate | reflexivity].
Defined.

(** X3. On a host that is at or ahead of UTC at all times, formatting is
    idempotent: for a string that parses to a date whose local year is
    between 1000 and 9999, formatting the result again gives the same
    string. *)
Theorem formatDate_idempotent (h : Host) (s : string) (t : Z) :
  (forall u, 0 <= LocalTZA h u true < msPerDay) ->
  parse h s = Int t ->
  1000 <= YearFromTime (LocalTime h t) <= 9999 ->
  formatDate h (formatDate h s) = formatDate h s.
Proof.
  intros Hoff E Hy.
  rewrite (formatDate_Int h s t E), decimal_four by assumption.
  pose proof (MonthFromTime_range (LocalTime h t)) as Hm.
  pose proof (DateFromTime_range (LocalTime h t)) as Hd.
  pose proof (DateFromTime_in_month (LocalTime h t)) as Hd'.
  apply (formatDate_dateOnly_ahead h); try lia. apply Hoff.
Qed.

Lemma formatDate_idempotent_witness :
  formatDate madridWinterHost "2024-03-05T23:30:00-06:00" = "2024-03-06" /\
  formatDate madridWinterHost
      (formatDate madridWinterHost "2024-03-05T23:30:00-06:00") =
    formatDate madridWinterHost "2024-03-05T23:30:00-06:00".
Proof.
  split; [vm_compute; reflexivity|].
  apply (formatDate_idempotent madridWinterHost "2024-03-05T23:30:00-06:00"
           1709703000000).
  - intros u. cbv [madridWinterHost fixedOffsetHost LocalTZA msPerMinute msPerDay].
    lia.
  - vm_compute. reflexivity.
  - vm_compute. split; discriminate.
Defined.

(** X4. A date and time without offset, [YYYY-MM-DDTHH:mm], is read as
    local time, so [formatDate] returns its date part whatever the sign of
    the host's offset, as long as the offset the host uses to read the
    string is the one it uses to show the instant (and is at most a day). *)
Theorem formatDate_local_dateTime (h : Host) (y m d hh mi : Z) :
  1000 <= y <= 9999 -> 1 <= m <= 12 -> 1 <= d <= daysInMonth y m ->
  0 <= hh <= 23 -> 0 <= mi <= 59 ->
  let tv := MakeDate (MakeDay y (m - 1) d) (MakeTime hh mi 0 0) in
  - msPerDay <= LocalTZA h tv false <= msPerDay ->
  LocalTZA h (UTC h tv) true = LocalTZA h tv false ->
  formatDate h (dateOnly y m d ++ "T" ++ twoDigits hh ++ ":" ++ twoDigits mi) =
    dateOnly y m d.
Proof.
  intros Hy Hm Hd Hh Hi tv Hb Hc.
  pose proof (daysInMonth_range y m Hm) as R.
  pose proof (MakeTime_in_day hh mi Hh Hi) as T.
  pose proof (MakeDay_clip y (m - 1) d ltac:(lia) ltac:(lia) ltac:(lia)) as B.
  assert (E : parse h (dateOnly y m d ++ "T" ++ twoDigits hh ++ ":" ++ twoDigits mi)
              = Int (UTC h tv)).
  { unfold parse. rewrite parseISO_dateTime by lia.
    unfold isoTimeValue. cbn [isoYear isoMonth isoDay isoTime isoOffset].
    fold tv. unfold TimeClip.
    destruct (Z.ltb_spec 8640000000000000 (Z.abs (UTC h tv))) as [C|C];
      [|reflexivity].
    exfalso. unfold UTC, tv, MakeDate, msPerDay in *. lia. }
  rewrite (formatDate_Int h _ _ E).
  assert (L : LocalTime h (UTC h tv) = tv).
  { unfold LocalTime. rewrite Hc. unfold UTC. lia. }
  rewrite L.
  destruct (MakeDay_fields tv y (m - 1) d) as (-> & -> & ->).
  - lia.
  - now replace (m - 1 + 1) with m by lia.
  - unfold tv, MakeDate. rewrite (Day_shift _ _ 0) by lia. lia.
  - replace (m - 1 + 1) with m by lia. rewrite decimal_four by assumption.
    reflexivity.
Qed.

Lemma formatDate_local_dateTime_witness :
  dateOnly 2024 3 5 ++ "T" ++ twoDigits 0 ++ ":" ++ twoDigits 0 = "2024-03-05T00:00" /\
  formatDate mexicoCityHost "2024-03-05T00:00" = "2024-03-05".
Proof.
  split; [reflexivity|].
  apply (formatDate_local_dateTime mexicoCityHost 2024 3 5 0 0);
    vm_compute; try reflexivity; split; first [discriminate | reflexivity].
Defined.

(** ** Runs of the mounted screen *)

(** A property kept by every step holds along every run. *)
Lemma run_invariant h (P : System -> Prop) :
  (forall ev sys sys', P sys -> fire h ev sys = Some sys' -> P sys') ->
  forall evs sys sys', P sys -> run h evs sys = Some sys' -> P sys'.
Proof.
  intros Step. induction evs as [|ev rest IH]; intros sys sys' HP H;
    cbn [run] in H.
  - injection H as <-. assumption.
  - destruct (fire h ev sys) as [sys1|] eqn:F; [|discriminate].
    apply (IH sys1); [apply (Step ev sys) |]; assumption.
Qed.

(** The cases of a step that was taken, with its guard. *)
Ltac fire_cases ev F :=
  destruct ev as [[?data | ?e] | [?historyData | ?e] | [?id | | ?id | ]];
  cbn [fire] in F;
  match type of F with
  | (if ?c then _ else _) = _ => destruct c eqn:?G; [|discriminate F]
  end;
  injection F as <-.

Lemma fire_trace h ev sys sys' :
  fire h ev sys = Some sys' ->
  diagnoses (state (world sys')) =
    diagnosesAfter [ev] (diagnoses (state (world sys))) /\
  patientDetails (state (world sys')) =
    recordAfter [ev] (patientDetails (state (world sys))) /\
  alerts (world sys') = (alerts (world sys) ++ map alertOf (failures [ev]))%list /\
  getPatientDataCalls (world sys') = getPatientDataCalls (world sys) /\
  getPatientHistoryCalls (world sys') =
    (getPatientHistoryCalls (world sys) + count isRefresh [ev])%nat.
Proof.
  intros F. fire_cases ev F; cbn; rewrite ?app_nil_r; repeat split; lia.
Qed.

Lemma run_trace h evs : forall sys sys',
  run h evs sys = Some sys' ->
  diagnoses (state (world sys')) =
    diagnosesAfter evs (diagnoses (state (world sys))) /\
  patientDetails (state (world sys')) =
    recordAfter evs (patientDetails (state (world sys))) /\
  alerts (world sys') = (alerts (world sys) ++ map alertOf (failures evs))%list /\
  getPatientDataCalls (world sys') = getPatientDataCalls (world sys) /\
  getPatientHistoryCalls (world sys') =
    (getPatientHistoryCalls (world sys) + count isRefresh evs)%nat.
Proof.
  induction evs as [|ev rest IH]; intros sys sys' H; cbn [run] in H.
  - injection H as <-. cbn. rewrite app_nil_r. repeat split; lia.
  - destruct (fire h ev sys) as [sys1|] eqn:F; [|discriminate].
    destruct (fire_trace _ _ _ _ F) as (D1 & P1 & A1 & C1 & H1).
    destruct (IH _ _ H) as (D2 & P2 & A2 & C2 & H2).
    rewrite D2, P2, A2, C2, H2, D1, P1, A1, C1, H1.
    unfold count.
    destruct ev as [[?|?] | [?|?] | [?| |?|]]; cbn;
      rewrite ?app_nil_r, <- ?app_assoc; repeat split; lia.
Qed.

(** A run used by the witnesses below: the list arrives, the record fetch
    fails, the user refreshes and that fetch fails too. *)
Lemma sample_run :
  run utcHost
    [HistorySettles (Fulfilled [mkHistoryItem 7 "2024-03-05" "14:30" []]);
     DataSettles (Rejected (mkError "not found"));
     User Refresh;
     HistorySettles (Rejected (mkError "offline"))] mounted
  = Some (mkSystem
            (mkWorld
               (mkState [mkDiagnosis 7 "2024-03-05" "14:30"] None false false None)
               [("Error", "not found"); ("Error", "offline")] 1 [] 1 2)
            1 2).
Proof. vm_compute. reflexivity. Defined.

(** X5. In every state reached from mount, [diagnoses] is the list of the
    last list fetch that succeeded (cut to the three fields), or empty when
    none has, and [patientDetails] is the record of the record fetch if it
    succeeded, or null: failures, refreshes and presses never touch them. *)
Theorem diagnoses_last_fulfilled (h : Host) (evs : list Event) (sys : System) :
  run h evs mounted = Some sys ->
  diagnoses (state (world sys)) = diagnosesAfter evs [] /\
  patientDetails (state (world sys)) = recordAfter evs None.
Proof.
  intros H. destruct (run_trace h evs _ _ H) as (D & P & _). split; assumption.
Qed.

Lemma diagnoses_last_fulfilled_witness :
  diagnoses (mkState [mkDiagnosis 7 "2024-03-05" "14:30"] None false false None)
  = [mkDiagnosis 7 "2024-03-05" "14:30"].
Proof.
  exact (proj1 (diagnoses_last_fulfilled utcHost _ _ sample_run)).
Defined.

(** X6. The alerts shown in a run are exactly one per failed fetch, of the
    record or of the list, in the order of the failures, each titled
    [Error] and carrying the message of the failure; nothing else raises an
    alert. *)
Theorem alerts_are_failures (h : Host) (evs : list Event) (sys : System) :
  run h evs mounted = Some sys ->
  alerts (world sys) = map alertOf (failures evs).
Proof.
  intros H. destruct (run_trace h evs _ _ H) as (_ & _ & A & _). exact A.
Qed.

Lemma alerts_are_failures_witness :
  alerts (mkWorld
            (mkState [mkDiagnosis 7 "2024-03-05" "14:30"] None false false None)
            [("Error", "not found"); ("Error", "offline")] 1 [] 1 2)
  = [("Error", "not found"); ("Error", "offline")].
Proof.
  exact (alerts_are_failures utcHost _ _ sample_run).
Defined.

Lemma fire_refreshing h ev sys sys' :
  ((historySettled sys <= getPatientHistoryCalls (world sys))%nat /\
   (refreshing (state (world sys)) = true -> listFetchPending sys)) ->
  fire h ev sys = Some sys' ->
  (historySettled sys' <= getPatientHistoryCalls (world sys'))%nat /\
  (refreshing (state (world sys')) = true -> listFetchPending sys').
Proof.
  unfold listFetchPending. intros [Hle Hr] F.
  fire_cases ev F; cbn in *;
    try (apply Nat.ltb_lt in G); (split; [lia|]); try (intros; lia);
    try discriminate; try (intros R; specialize (Hr R); lia).
Qed.

(** X7. Along every run from mount the patient record is requested once
    and never again; the list is requested once at mount and once more per
    refresh (refreshes are neither merged nor queued); and whenever
    [refreshing] is true a list fetch is still in flight. *)
Theorem service_calls (h : Host) (evs : list Event) (sys : System) :
  run h evs mounted = Some sys ->
  getPatientDataCalls (world sys) = 1%nat /\
  getPatientHistoryCalls (world sys) = S (count isRefresh evs) /\
  (historySettled sys <= getPatientHistoryCalls (world sys))%nat /\
  (refreshing (state (world sys)) = true -> listFetchPending sys).
Proof.
  intros H. destruct (run_trace h evs _ _ H) as (_ & _ & _ & C & R).
  split; [exact C|]. split; [exact R|].
  apply (run_invariant h
           (fun s => (historySettled s <= getPatientHistoryCalls (world s))%nat /\
                     (refreshing (state (world s)) = true -> listFetchPending s))
           (fun ev s s' => fire_refreshing h ev s s') evs mounted sys);
    [|exact H].
  cbn. split; [lia | discriminate].
Qed.

Lemma service_calls_witness :
  getPatientHistoryCalls
    (mkWorld
       (mkState [mkDiagnosis 7 "2024-03-05" "14:30"] None false false None)
       [("Error", "not found"); ("Error", "offline")] 1 [] 1 2) = 2%nat.
Proof.
  exact (proj1 (proj2 (service_calls utcHost _ _ sample_run))).
Defined.

Lemma fire_user_loading h ev sys :
  loading (state (world sys)) = true -> fire h (User ev) sys = None.
Proof.
  intros L. cbn [fire]. rewrite (render_loading h _ L). reflexivity.
Qed.

Lemma fire_quiet h ev sys sys' :
  quietWhileLoading sys -> fire h ev sys = Some sys' -> quietWhileLoading sys'.
Proof.
  intros Qs F L'.
  pose proof (fire_loading _ _ _ _ F) as FL. rewrite L' in FL.
  symmetry in FL. apply andb_true_iff in FL as [Ls _].
  specialize (Qs Ls). destruct Qs as (R & P & A & C).
  destruct ev as [p | p | ev].
  - cbn [fire] in F. destruct (_ <? _)%nat; [|discriminate]. injection F as <-.
    destruct p; cbn in L'; discriminate.
  - cbn [fire] in F. destruct (_ <? _)%nat; [|discriminate]. injection F as <-.
    destruct p; cbn; repeat split; assumption.
  - rewrite (fire_user_loading h ev sys Ls) in F. discriminate.
Qed.

(** X8. While [loading] is true the tree is the activity indicator alone,
    so no user event can be raised: in a state reached from mount with
    [loading] still true, no row has been pressed, no animation started,
    no refresh made ([refreshing] is false and the list was requested
    once), and the trace holds settlements of the first list fetch only. *)
Theorem no_user_event_while_loading (h : Host) (evs : list Event) (sys : System) :
  run h evs mounted = Some sys ->
  loading (state (world sys)) = true ->
  (forall ev, fire h (User ev) sys = None) /\
  refreshing (state (world sys)) = false /\
  pressedDiagnosisId (state (world sys)) = None /\
  animations (world sys) = [] /\
  getPatientHistoryCalls (world sys) = 1%nat /\
  forallb (fun ev => negb (isDataSettles ev) && negb (isRefresh ev)) evs = true.
Proof.
  intros H L.
  split; [intros ev; now apply fire_user_loading|].
  assert (Q : quietWhileLoading sys).
  { apply (run_invariant h quietWhileLoading (fire_quiet h) evs mounted);
      [intros _; cbn; repeat split | exact H]. }
  destruct (Q L) as (R & P & A & C). repeat split; try assumption.
  destruct (run_trace h evs _ _ H) as (_ & _ & _ & _ & HC).
  rewrite C in HC. cbn in HC.
  pose proof (run_loading h evs _ _ H) as LD.
  rewrite L in LD. cbn in LD. symmetry in LD. apply negb_true_iff in LD.
  apply forallb_forall. intros ev HIn.
  apply andb_true_iff. split.
  - apply negb_true_iff. destruct (isDataSettles ev) eqn:E; [|reflexivity].
    assert (X : existsb isDataSettles evs = true)
      by (apply existsb_exists; exists ev; split; assumption).
    congruence.
  - apply negb_true_iff. destruct (isRefresh ev) eqn:E; [|reflexivity].
    exfalso. unfold count in HC.
    assert (In ev (filter isRefresh evs)) as HI by (apply filter_In; split; assumption).
    destruct (filter isRefresh evs); [destruct HI | cbn in HC; lia].
Qed.

Lemma no_user_event_while_loading_witness :
  run utcHost [HistorySettles (Fulfilled [mkHistoryItem 7 "2024-03-05" "14:30" []])]
      mounted
  = Some (mkSystem
            (mkWorld
               (mkState [mkDiagnosis 7 "2024-03-05" "14:30"] None true false None)
               [] 0 [] 1 1)
            0 1)
  /\ fire utcHost (User (PressIn 7))
       (mkSystem
          (mkWorld
             (mkState [mkDiagnosis 7 "2024-03-05" "14:30"] None true false None)
             [] 0 [] 1 1)
          0 1) = None.
Proof.
  split; [reflexivity|].
  exact (proj1 (no_user_event_while_loading utcHost
                  [HistorySettles (Fulfilled [mkHistoryItem 7 "2024-03-05" "14:30" []])]
                  _ eq_refl eq_refl) (PressIn 7)).
Defined.

Lemma fire_emptyAndIdle h ev sys sys' :
  emptyAndIdle sys -> fire h ev sys = Some sys' ->
  emptyAndIdle sys' /\ isDataSettles ev = true.
Proof.
  unfold emptyAndIdle. intros [E I] F.
  destruct ev as [p | p | ev]; cbn [fire] in F.
  - destruct (_ <? _)%nat; [|discriminate]. injection F as <-.
    destruct p; cbn; repeat split; assumption.
  - rewrite I, Nat.ltb_irrefl in F. discriminate.
  - destruct (render_no_diagnoses h _ E) as (_ & _ & Hh).
    rewrite Hh in F. discriminate.
Qed.

(** X9. A screen with no diagnoses and no list fetch in flight stays that
    way: the tree has no refresh control and no row, so the only event
    still possible is the settlement of the record fetch, and [diagnoses]
    remains empty in every later state. After an initial list fetch that
    failed or returned nothing, the list cannot be loaded again. *)
Theorem empty_list_is_final (h : Host) (evs : list Event) (sys sys' : System) :
  diagnoses (state (world sys)) = [] ->
  historySettled sys = getPatientHistoryCalls (world sys) ->
  run h evs sys = Some sys' ->
  diagnoses (state (world sys')) = [] /\
  getPatientHistoryCalls (world sys') = getPatientHistoryCalls (world sys) /\
  forallb isDataSettles evs = true.
Proof.
  intros E I. revert sys E I.
  induction evs as [|ev rest IH]; intros sys E I H; cbn [run] in H.
  - injection H as <-. repeat split. assumption.
  - destruct (fire h ev sys) as [sys1|] eqn:F; [|discriminate].
    destruct (fire_emptyAndIdle h ev sys sys1 (conj E I) F) as ([E1 I1] & D).
    destruct (IH sys1 E1 I1 H) as (E' & C' & A').
    destruct (fire_trace _ _ _ _ F) as (_ & _ & _ & _ & C1).
    cbn [forallb]. rewrite D, A'. repeat split; try assumption.
    rewrite C', C1. destruct ev as [?|?|[]]; try discriminate D; cbn; lia.
Qed.

Lemma empty_list_is_final_witness :
  run utcHost [HistorySettles (Rejected (mkError "offline"))] mounted
  = Some (mkSystem
            (mkWorld (mkState [] None true false None) [("Error", "offline")]
                     0 [] 1 1)
            0 1)
  /\ diagnoses
       (mkState [] (Some (mkPatientDetails "Ana" "555" "a@b.c" (SpecFloat.S754_finite false 15 1) "F"
                          (SpecFloat.S754_finite false 331 (-1))))
                false false None) = [].
Proof.
  split; [reflexivity|].
  exact (proj1 (empty_list_is_final utcHost
                  [DataSettles (Fulfilled (mkPatientDetails "Ana" "555" "a@b.c" (SpecFloat.S754_finite false 15 1) "F"
                          (SpecFloat.S754_finite false 331 (-1))))]
                  (mkSystem
                     (mkWorld (mkState [] None true false None)
                              [("Error", "offline")] 0 [] 1 1)
                     0 1)
                  _ eq_refl eq_refl eq_refl)).
Defined.

(** ** The rendered list *)

Lemma PatientInfo_shown s :
  flat_map shown (PatientInfo s) =
    match patientDetails s with
    | Some p => patientShown p
    | None => []
    end.
Proof. unfold PatientInfo. destruct (patientDetails s); reflexivity. Qed.

Lemma PatientInfo_inert s :
  flat_map listKeys (PatientInfo s) = [] /\
  list_sum (map scaledRows (PatientInfo s)) = 0%nat.
Proof. unfold PatientInfo. destruct (patientDetails s); split; reflexivity. Qed.

Lemma rows_shown h s l :
  flat_map shown (map (renderDiagnosis h s) l) = flat_map (rowShown h) l.
Proof.
  induction l as [|item rest IH]; [reflexivity|].
  cbn [map flat_map]. rewrite IH. reflexivity.
Qed.

Lemma rows_inert h s l :
  flat_map listKeys (map (renderDiagnosis h s) l) = [] /\
  flat_map refreshControls (map (renderDiagnosis h s) l) = [].
Proof.
  induction l as [|item rest [IH1 IH2]]; [split; reflexivity|].
  cbn [map flat_map]. rewrite IH1, IH2. split; reflexivity.
Qed.

(** On safe integers the key is the decimal text of the id. *)
Lemma keys_of_safeIds h l :
  safeIds l -> map (keyExtractor h) l = map decimal (map history_id l).
Proof.
  induction 1 as [|item rest Hs _ IH]; [reflexivity|].
  cbn [map]. rewrite IH. unfold keyExtractor at 1, IntegerToString.
  rewrite Hs. reflexivity.
Qed.

(** X10. Once [loading] is false and there are diagnoses, the text
    elements of the screen hold, in order: the patient block when a record
    is stored (its labels and values, the age and the height as number
    children followed by [ años] and [ cm]), the title, the two column
    headers and then, per diagnosis in the order of [diagnoses], the
    formatted date and the time as received. The list keys are the
    [toString()] of the history ids, their decimal digits when the ids are
    safe integers; and there is one refresh control, whose spinner follows
    [refreshing]. The rows are there whether or not a refresh is in
    flight. *)
Theorem render_shows_rows (h : Host) (s : State) :
  loading s = false -> diagnoses s <> [] ->
  shown (render h s) =
    (match patientDetails s with
     | Some p => patientShown p
     | None => []
     end ++
     [ChildString "Historial de Diagnósticos"; ChildString "Fecha";
      ChildString "Hora del Diagnóstico"] ++
     flat_map (rowShown h) (diagnoses s))%list /\
  listKeys (render h s) = map (keyExtractor h) (diagnoses s) /\
  (safeIds (diagnoses s) ->
   listKeys (render h s) = map decimal (map history_id (diagnoses s))) /\
  refreshControls (render h s) = [(refreshing s, Refresh)].
Proof.
  intros L Hne.
  assert (K : listKeys (render h s) = map (keyExtractor h) (diagnoses s)).
  { rewrite (render_list h s L Hne).
    destruct (PatientInfo_inert s) as (Hk & _).
    destruct (rows_inert h s (diagnoses s)) as (Rk & _).
    cbn [listKeys flat_map]. rewrite !app_nil_r, flat_map_app, Hk.
    cbn [listKeys flat_map app]. rewrite Rk, !app_nil_r. reflexivity. }
  split; [|split; [exact K|split]].
  - rewrite (render_list h s L Hne).
    cbn [shown flat_map]. rewrite !app_nil_r, flat_map_app, PatientInfo_shown.
    cbn [shown flat_map app]. rewrite rows_shown, !app_nil_r. reflexivity.
  - intros Safe. rewrite K. now apply keys_of_safeIds.
  - rewrite (render_list h s L Hne).
    destruct (PatientInfo_plain s) as (_ & Hr & _).
    destruct (rows_inert h s (diagnoses s)) as (_ & Rr).
    cbn [refreshControls flat_map]. rewrite !app_nil_r, flat_map_app, Hr.
    cbn [refreshControls flat_map app]. rewrite Rr. reflexivity.
Qed.

Lemma render_shows_rows_witness :
  shown (render mexicoCityHost
           (mkState [mkDiagnosis 7 "2024-03-05T18:00:00Z" "12:00"]
              (Some (mkPatientDetails "Ana" "555" "a@b.c"
                       (SpecFloat.S754_finite false 15 1) "F"
                       (SpecFloat.S754_finite false 331 (-1))))
              false true None))
  = [ChildString "Nombre"; ChildString "Ana";
     ChildString "Teléfono"; ChildString "555";
     ChildString "Correo electrónico"; ChildString "a@b.c";
     ChildString "Edad"; ChildNumber (SpecFloat.S754_finite false 15 1);
     ChildString " años";
     ChildString "Sexo"; ChildString "F";
     ChildString "Altura"; ChildNumber (SpecFloat.S754_finite false 331 (-1));
     ChildString " cm";
     ChildString "Historial de Diagnósticos"; ChildString "Fecha";
     ChildString "Hora del Diagnóstico";
     ChildString "2024-03-05"; ChildString "12:00"].
Proof.
  refine (proj1 (render_shows_rows mexicoCityHost
                   (mkState [mkDiagnosis 7 "2024-03-05T18:00:00Z" "12:00"]
                      (Some (mkPatientDetails "Ana" "555" "a@b.c"
                               (SpecFloat.S754_finite false 15 1) "F"
                               (SpecFloat.S754_finite false 331 (-1))))
                      false true None) eq_refl _)).
  discriminate.
Defined.

Lemma rows_handlers h s l ev :
  In ev (flat_map handlers (map (renderDiagnosis h s) l)) <->
  exists item, In item l /\
               (ev = PressIn (history_id item) \/ ev = PressOut \/
                ev = Press (history_id item)).
Proof.
  induction l as [|item rest IH].
  - cbn. split; [intros [] | intros (x & [] & _)].
  - cbn [map flat_map]. rewrite in_app_iff, IH.
    cbn [renderDiagnosis handlers flat_map app In].
    split.
    + intros [[H | [H | [H | []]]] | (x & Hx & Hev)].
      * exists item. split; [now left | now left].
      * exists item. split; [now left | right; now left].
      * exists item. split; [now left | right; now right].
      * exists x. split; [now right | assumption].
    + intros (x & [-> | Hx] & Hev).
      * left. destruct Hev as [-> | [-> | ->]]; tauto.
      * right. exists x. split; assumption.
Qed.

Lemma row_handlers_rendered h s ev :
  ev <> Refresh ->
  (In ev (handlers (render h s)) <->
   loading s = false /\
   exists item, In item (diagnoses s) /\
                (ev = PressIn (history_id item) \/ ev = PressOut \/
                 ev = Press (history_id item))).
Proof.
  intros Hev. destruct (loading s) eqn:L.
  - rewrite (render_loading h s L). cbn. split; [intros [] | intros [[=] _]].
  - destruct (diagnoses s) as [|d ds] eqn:E.
    + destruct (render_no_diagnoses h s E) as (_ & _ & ->).
      split; [intros [] | intros (_ & x & [] & _)].
    + assert (Hne : diagnoses s <> []) by (rewrite E; discriminate).
      rewrite (render_list h s L Hne).
      destruct (PatientInfo_plain s) as (Hh & _ & _).
      cbn [handlers flat_map]. rewrite !app_nil_r, flat_map_app, Hh.
      cbn [handlers flat_map app]. rewrite !app_nil_r, in_app_iff.
      rewrite rows_handlers, E. cbn [In].
      split.
      * intros [H | [H | []]]; [split; [reflexivity | exact H] | congruence].
      * intros (_ & H). left. exact H.
Qed.

(** X11. A press-in or a press can be raised for the id [id] exactly when
    [loading] is false and [id] is the history id of an entry of
    [diagnoses]; a press-out exactly when [loading] is false and
    [diagnoses] is not empty. No handler exists for an id that is not
    listed. *)
Theorem row_events_rendered (h : Host) (s : State) (id : Z) :
  (In (PressIn id) (handlers (render h s)) <->
   loading s = false /\ In id (map history_id (diagnoses s))) /\
  (In (Press id) (handlers (render h s)) <->
   loading s = false /\ In id (map history_id (diagnoses s))) /\
  (In PressOut (handlers (render h s)) <->
   loading s = false /\ diagnoses s <> []).
Proof.
  split; [|split].
  - rewrite (row_handlers_rendered h s (PressIn id)) by discriminate.
    rewrite in_map_iff. split.
    + intros (L & x & Hx & [[= ->] | [[=] | [=]]]). split; [exact L|].
      exists x. split; [reflexivity | exact Hx].
    + intros (L & x & <- & Hx). split; [exact L|]. exists x. split; [exact Hx|].
      now left.
  - rewrite (row_handlers_rendered h s (Press id)) by discriminate.
    rewrite in_map_iff. split.
    + intros (L & x & Hx & [[=] | [[=] | [= ->]]]). split; [exact L|].
      exists x. split; [reflexivity | exact Hx].
    + intros (L & x & <- & Hx). split; [exact L|]. exists x. split; [exact Hx|].
      right. now right.
  - rewrite (row_handlers_rendered h s PressOut) by discriminate.
    split.
    + intros (L & x & Hx & _). split; [exact L|]. intros E. rewrite E in Hx.
      destruct Hx.
    + intros (L & Hne). split; [exact L|].
      destruct (diagnoses s) as [|d ds]; [contradiction|].
      exists d. split; [now left | right; now left].
Qed.

Lemma row_events_rendered_witness :
  In (PressIn 7)
     (handlers (render utcHost
                  (mkState [mkDiagnosis 7 "2024-03-05" "14:30"] None false false None))).
Proof.
  apply (proj1 (row_events_rendered utcHost
                  (mkState [mkDiagnosis 7 "2024-03-05" "14:30"] None false false None)
                  7)).
  split; [reflexivity | left; reflexivity].
Defined.

(** *** Keys *)

Lemma decimal_inj a b : decimal a = decimal b -> a = b.
Proof.
  unfold decimal. intros E.
  assert (N : forall z, Z.to_int z <> Decimal.Pos Decimal.Nil /\
                        Z.to_int z <> Decimal.Neg Decimal.Nil).
  { intros [|p|p]; cbn; split; try discriminate; intros [= H];
      now apply (DecimalPos.Unsigned.to_uint_nonnil p). }
  apply DecimalZ.to_int_inj.
  assert (S : Some (Z.to_int a) = Some (Z.to_int b)).
  { rewrite <- (NilZero.isi (Z.to_int a)), <- (NilZero.isi (Z.to_int b));
      try apply N. now rewrite E. }
  now injection S.
Qed.

Lemma NoDup_map_decimal (ids : list Z) : NoDup ids -> NoDup (map decimal ids).
Proof.
  induction 1 as [|x l Hnotin ND IH]; cbn [map]; constructor; [|assumption].
  intros HIn. apply in_map_iff in HIn as (y & E & Hy).
  apply decimal_inj in E. subst. contradiction.
Qed.

(** X12. On history ids that are safe integers, [keyExtractor] gives two
    entries the same key only when they have the same history id; so when
    the history ids of a list are safe integers and pairwise distinct, the
    keys of its rows are pairwise distinct. *)
Theorem keys_distinct (h : Host) (l : list Diagnosis) :
  (forall a b,
      isSafeInteger (history_id a) = true ->
      isSafeInteger (history_id b) = true ->
      keyExtractor h a = keyExtractor h b -> history_id a = history_id b) /\
  (safeIds l -> NoDup (map history_id l) -> NoDup (map (keyExtractor h) l)).
Proof.
  split.
  - intros a b Sa Sb. unfold keyExtractor, IntegerToString. rewrite Sa, Sb.
    apply decimal_inj.
  - intros Safe ND. rewrite (keys_of_safeIds h l Safe).
    now apply NoDup_map_decimal.
Qed.

Lemma keys_distinct_witness :
  NoDup (map history_id [mkDiagnosis 7 "2024-03-05" "14:30";
                         mkDiagnosis (-8) "2024-03-06" "09:10"]) /\
  NoDup ["7"; "-8"].
Proof.
  assert (N : NoDup (map history_id [mkDiagnosis 7 "2024-03-05" "14:30";
                                     mkDiagnosis (-8) "2024-03-06" "09:10"])).
  { cbn. repeat constructor; cbn; intuition discriminate. }
  assert (S : safeIds [mkDiagnosis 7 "2024-03-05" "14:30";
                       mkDiagnosis (-8) "2024-03-06" "09:10"])
    by (repeat constructor).
  split; [exact N|].
  exact (proj2 (keys_distinct utcHost _) S N).
Defined.

(** *** The pressed row *)

Lemma rows_scaled h s l :
  list_sum (map scaledRows (map (renderDiagnosis h s) l)) =
    List.length
      (filter (fun item => optZ_eqb (pressedDiagnosisId s) (history_id item)) l).
Proof.
  induction l as [|item rest IH]; [reflexivity|].
  cbn [map filter].
  change (list_sum (?x :: ?l)) with (x + list_sum l)%nat.
  rewrite IH.
  assert (R : scaledRows (renderDiagnosis h s item) =
              if optZ_eqb (pressedDiagnosisId s) (history_id item)
              then 1%nat else 0%nat).
  { unfold renderDiagnosis. destruct (optZ_eqb _ _); reflexivity. }
  rewrite R. destruct (optZ_eqb _ _); reflexivity.
Qed.

Lemma filter_NoDup_le_one (l : list Diagnosis) (x : Z) :
  NoDup (map history_id l) ->
  (List.length (filter (fun item => (x =? history_id item)%Z) l) <= 1)%nat.
Proof.
  induction l as [|item rest IH]; intros ND; cbn [filter map] in *; [cbn; lia|].
  inversion ND as [|? ? Hnotin ND']; subst.
  destruct (Z.eqb_spec x (history_id item)) as [->|]; [|now apply IH].
  cbn [List.length].
  assert (Z : filter (fun i => history_id item =? history_id i) rest = []).
  { destruct (filter _ rest) as [|y ys] eqn:F; [reflexivity|].
    exfalso. assert (In y (filter (fun i => history_id item =? history_id i) rest))
      as HI by (rewrite F; now left).
    apply filter_In in HI as [HI E]. apply Z.eqb_eq in E.
    apply Hnotin. rewrite E. now apply in_map. }
  rewrite Z. cbn. lia.
Qed.

Lemma filter_none (l : list Diagnosis) : filter (fun _ => false) l = [].
Proof. induction l; [reflexivity | assumption]. Qed.

(** X13. The rows that carry the press transform are those whose history
    id equals [pressedDiagnosisId]: none while loading or when no row is
    pressed, and at most one when the history ids are pairwise distinct. *)
Theorem one_row_pressed (h : Host) (s : State) :
  scaledRows (render h s) =
    (if loading s then 0%nat
     else List.length
            (filter (fun item => optZ_eqb (pressedDiagnosisId s) (history_id item))
                    (diagnoses s))) /\
  (pressedDiagnosisId s = None -> scaledRows (render h s) = 0%nat) /\
  (NoDup (map history_id (diagnoses s)) -> (scaledRows (render h s) <= 1)%nat).
Proof.
  assert (E : scaledRows (render h s) =
    (if loading s then 0%nat
     else List.length
            (filter (fun item => optZ_eqb (pressedDiagnosisId s) (history_id item))
                    (diagnoses s)))).
  { destruct (loading s) eqn:L.
    - rewrite (render_loading h s L). reflexivity.
    - destruct (PatientInfo_inert s) as (_ & Hs).
      destruct (diagnoses s) as [|d ds] eqn:D.
      + rewrite (render_empty h s L D). cbn [scaledRows map].
        rewrite map_app, list_sum_app, Hs. reflexivity.
      + assert (Hne : diagnoses s <> []) by (rewrite D; discriminate).
        rewrite (render_list h s L Hne). cbn [scaledRows map].
        rewrite map_app, list_sum_app, Hs. cbn [scaledRows map].
        rewrite rows_scaled, D. cbn [list_sum fold_right]. lia. }
  split; [exact E|]. split.
  - intros P. rewrite E, P. destruct (loading s); [reflexivity|].
    cbn [optZ_eqb]. now rewrite filter_none.
  - intros ND. rewrite E. destruct (loading s); [lia|].
    destruct (pressedDiagnosisId s) as [x|]; cbn [optZ_eqb].
    + now apply filter_NoDup_le_one.
    + rewrite filter_none. cbn. lia.
Qed.

Lemma one_row_pressed_witness :
  scaledRows
    (render utcHost
       (mkState [mkDiagnosis 7 "2024-03-05" "14:30";
                 mkDiagnosis 8 "2024-03-06" "09:10"] None false false None))
  = 0%nat.
Proof.
  exact (proj1 (proj2 (one_row_pressed utcHost
                         (mkState [mkDiagnosis 7 "2024-03-05" "14:30";
                                   mkDiagnosis 8 "2024-03-06" "09:10"]
                                  None false false None)))
           eq_refl).
Defined.

(** X14. A press-in on a row followed by a press-out completes normally,
    leaves no row pressed, starts the scale-down and then the scale-up
    animation, and changes nothing else; when no row was pressed before,
    the component state is back to what it was. *)
Theorem press_cycle (w : World) (X : Z) :
  let w' := exec (handleRowPressIn X ;; handleRowPressOut)%js w in
  completion (handleRowPressIn X ;; handleRowPressOut)%js w = Normal tt /\
  pressedDiagnosisId (state w') = None /\
  pressOnly w w' /\
  animations w' =
    (animations w ++ [mkTiming (98 # 100) 100 true; mkTiming 1 100 true])%list /\
  (pressedDiagnosisId (state w) = None -> state w' = state w).
Proof.
  unfold pressOnly. cbn. rewrite <- app_assoc. repeat split.
  destruct w as [[ds pd ld rf pr] al gb an c1 c2]. cbn. now intros ->.
Qed.

Lemma press_cycle_witness :
  state (exec (handleRowPressIn 7 ;; handleRowPressOut)%js initialWorld)
  = state initialWorld.
Proof.
  destruct (press_cycle initialWorld 7) as (_ & _ & _ & _ & S).
  exact (S eq_refl).
Defined.

(** ** The History screen *)

(** X15. Whatever date helper the History screen imports and whatever the
    route parameters are, its text elements above the analysis hold, in
    order, the six labels each followed by its value: the patient and the
    doctor as received, the date as formatted by the helper followed by one
    space and the time as received, the age as a number child followed by
    [ años], the sex, the height as a number child followed by [ cm]; then
    the title of the analysis. When the helper shows the date parameter as
    it is, the date and time value is the two parameters joined by a
    space. *)
Theorem history_shows_parameters (f : string -> string) (p : History.RouteParams) :
  History.headShown (History.HistoryPatientScreen f p) =
    [History.ChildString "Nombre"; History.ChildString (History.patientName p);
     History.ChildString "Médico responsable";
     History.ChildString (History.doctorName p);
     History.ChildString "Fecha y Hora";
     History.ChildString (f (History.date p) ++ " " ++ History.time p);
     History.ChildString "Edad"; History.ChildNumber (History.age p);
     History.ChildString " años";
     History.ChildString "Sexo"; History.ChildString (History.sex p);
     History.ChildString "Altura"; History.ChildNumber (History.height p);
     History.ChildString " cm";
     History.ChildString "Resultados del análisis"] /\
  (keepsCanonical f (History.date p) ->
   In (History.ChildString (History.date p ++ " " ++ History.time p))
      (History.headShown (History.HistoryPatientScreen f p))).
Proof.
  split; [reflexivity|].
  unfold keepsCanonical. intros K.
  cbn [History.HistoryPatientScreen History.headShown flat_map app In].
  unfold formatDateAndTime. rewrite K. tauto.
Qed.

Lemma history_shows_parameters_witness :
  In (History.ChildString "2023-12-31 08:05")
     (History.headShown
        (History.HistoryPatientScreen (formatDate utcHost)
           (History.mkParams "Ana" "Dr. Ruiz" "2023-12-31" "08:05"
              (SpecFloat.S754_finite false 15 1) "F"
              (SpecFloat.S754_finite false 331 (-1))))).
Proof.
  refine (proj2 (history_shows_parameters (formatDate utcHost)
                   (History.mkParams "Ana" "Dr. Ruiz" "2023-12-31" "08:05"
                      (SpecFloat.S754_finite false 15 1) "F"
                      (SpecFloat.S754_finite false 331 (-1)))) _).
  vm_compute. reflexivity.
Defined.

(** X16. The analysis shown by the History screen does not depend on the
    route parameters or on the imported date helper: the ten labelled
    values are the same for every patient, date and time. *)
Theorem history_analysis_fixed (f f' : string -> string)
    (p q : History.RouteParams) :
  History.scrolledTexts (History.HistoryPatientScreen f p) =
  History.scrolledTexts (History.HistoryPatientScreen f' q) /\
  List.length (History.scrolledTexts (History.HistoryPatientScreen f p)) = 20%nat.
Proof. split; reflexivity. Qed.
